(** * Verification of the user-authentication service (auth.py)

    A shallow embedding of [Auth] (src/0x03-user_authentication_service/auth.py)
    as a state-and-exception monad over a world made of the user table, the
    log of store calls and the entropy position.  The store ([db.py],
    [user.py]) is not part of the sources at hand; it is modelled from the
    specification (sections 3 and 6).  [bcrypt] and [uuid] are library code
    and are modelled after their documented behaviour. *)

From Stdlib Require Import NArith Ascii String.
From stdpp Require Import base option list strings.

Local Open Scope string_scope.

(** ** Exceptions and outcomes *)

(** The [Exception] subclasses the service meets.  [StoreError] stands for any
    other exception raised inside the store (an [OperationalError] of a lost
    connection, an [InvalidRequestError], ...); [TypeError] is the one Flask
    raises for a cookie value that is not a string. *)
Inductive exn : Type :=
  | NoResultFound
  | ValueError (msg : string)
  | StoreError (detail : string)
  | TypeError.

Inductive outcome (A : Type) : Type :=
  | Return (a : A)
  | Raise (e : exn).
Arguments Return {A} a.
Arguments Raise {A} e.

(** ** Data model *)

(** A bcrypt hash carries its salt next to the digest. *)
Record Hashed : Type := mkHashed { salt : N; digest : string }.

(** Modelled from the spec: the columns of a [User] of user.py other than the
    primary key (section 3: email, hashed_password, nullable session_id and
    reset_token). *)
Record Fields : Type := mkFields {
  email : string;
  hashed_password : Hashed;
  session_id : option string;
  reset_token : option string
}.

(** Modelled from the spec: a [User] object of user.py, the store-assigned
    key and the columns it is mapped to. *)
Record User : Type := mkUser { id : nat; fields : Fields }.

(** Keyword arguments of [find_user_by]. *)
Inductive Criterion : Type :=
  | ByEmail (e : string)
  | BySessionId (s : string)
  | ByResetToken (t : string).

(** Attribute assignments: the keyword arguments of [update_user] and the
    attribute stores [user.attr = v]. *)
Inductive Assignment : Type :=
  | SetSessionId (v : option string)
  | SetResetToken (v : option string)
  | SetHashedPassword (h : Hashed).

(** Calls made on the store, in the order they were made. *)
Inductive DBCall : Type :=
  | CallFind (c : Criterion)
  | CallAdd (e : string) (h : Hashed)
  | CallUpdate (uid : nat) (a : Assignment).

(** Modelled from the spec: the state behind [DB] of db.py and the entropy
    position.  The [users] table (the row of primary key [S i] is at index
    [i]: keys are assigned from 1 upwards and rows are never deleted), the
    log of store calls, and the number of 16-byte draws taken from the
    entropy source so far. *)
Record World : Type := mkWorld {
  users : list Fields;
  calls : list DBCall;
  drawn : nat
}.

Definition log_call (c : DBCall) (w : World) : World :=
  mkWorld (users w) (calls w ++ [c]) (drawn w).

Global Instance Hashed_eq_dec : EqDecision Hashed.
Proof. solve_decision. Defined.

Global Instance Fields_eq_dec : EqDecision Fields.
Proof. solve_decision. Defined.

(** Modelled from the spec: the equality test of findUserBy (section 6). *)
Definition matches (c : Criterion) (u : Fields) : Prop :=
  match c with
  | ByEmail e => email u = e
  | BySessionId s => session_id u = Some s
  | ByResetToken t => reset_token u = Some t
  end.

Global Instance matches_dec c u : Decision (matches c u).
Proof. destruct c; simpl; apply _. Defined.

(** Modelled from the spec: the partial update of updateUser (section 6). *)
Definition assign (a : Assignment) (u : Fields) : Fields :=
  match a with
  | SetSessionId v =>
      mkFields (email u) (hashed_password u) v (reset_token u)
  | SetResetToken v =>
      mkFields (email u) (hashed_password u) (session_id u) v
  | SetHashedPassword h =>
      mkFields (email u) h (session_id u) (reset_token u)
  end.

(** ** The monad of the service: state and exceptions *)

Definition M (A : Type) : Type := World -> outcome A * World.

Definition ret {A} (a : A) : M A := fun w => (Return a, w).

Definition raise {A} (e : exn) : M A := fun w => (Raise e, w).

Definition bind {A B} (m : M A) (k : A -> M B) : M B :=
  fun w =>
    match m w with
    | (Return a, w') => k a w'
    | (Raise e, w') => (Raise e, w')
    end.

(** The outcome of a call that does not touch the world. *)
Definition of_outcome {A} (o : outcome A) : M A := fun w => (o, w).

Notation "x <- m ;; k" := (bind m (fun x => k))
  (at level 100, m at next level, right associativity).
Notation "m ;;; k" := (bind m (fun _ => k))
  (at level 100, right associativity).

(** [try: m except h]: when [m] raises [e] and [h e] is a handler, the handler
    runs in the world [m] left behind; otherwise the exception goes on. *)
Definition try_except {A} (m : M A) (h : exn -> option (M A)) : M A :=
  fun w =>
    match m w with
    | (Return a, w') => (Return a, w')
    | (Raise e, w') =>
        match h e with
        | Some k => k w'
        | None => (Raise e, w')
        end
    end.

(** [except NoResultFound:] *)
Definition except_NoResultFound {A} (k : M A) (e : exn) : option (M A) :=
  match e with
  | NoResultFound => Some k
  | _ => None
  end.

(** [except Exception:] *)
Definition except_Exception {A} (k : M A) (e : exn) : option (M A) :=
  Some k.

(** [except ValueError:] *)
Definition except_ValueError {A} (k : M A) (e : exn) : option (M A) :=
  match e with
  | ValueError _ => Some k
  | _ => None
  end.

(** ** Replies of the Flask routes (app.py) *)

(** [jsonify(body)] with its status code and the cookies set on it;
    [abort(status)]; and [redirect(location)].  A route that lets an
    exception escape has the outcome [Raise]. *)
Inductive Response : Type :=
  | Jsonify (status : nat) (body : list (string * string))
      (cookies : list (string * string))
  | Abort (status : nat)
  | Redirect (location : string).

(** [response.set_cookie(key, value)]: the cookie a string value makes; a
    value that is not a string, [None] here, raises [TypeError]. *)
Definition set_cookie (key : string) (value : option string)
  : M (string * string) :=
  match value with
  | Some v => ret (key, v)
  | None => raise TypeError
  end.

(** ** bcrypt: what it refuses *)

(** The message of the [ValueError] that [bcrypt.hashpw] and
    [bcrypt.checkpw] raise for a password of more than 72 bytes.  A [string]
    is the UTF-8 encoding of the Python [str], so [String.length] counts the
    bytes of [password.encode('utf-8')]. *)
Definition bcrypt_too_long : string :=
  "password cannot be longer than 72 bytes, truncate manually if necessary (e.g. my_password[:72])".

(** No two rows carry the same session id. *)
Definition sessions_unique (l : list Fields) : Prop :=
  forall i j u v s,
    l !! i = Some u -> l !! j = Some v ->
    session_id u = Some s -> session_id v = Some s -> i = j.

(** ** uuid: [uuid4] and [str] *)

(** [UUID(bytes=os.urandom(16), version=4)]: variant bits set to RFC 4122,
    version nibble set to 4. *)
Definition uuid4_of (r : N) : N :=
  let i := (r mod 2 ^ 128)%N in
  let i := N.ldiff i (N.shiftl 0xc000 48) in
  let i := N.lor i (N.shiftl 0x8000 48) in
  let i := N.ldiff i (N.shiftl 0xf000 64) in
  N.lor i (N.shiftl 4 76).

Definition hex_digit (d : N) : ascii :=
  match d with
  | 0%N => "0" | 1%N => "1" | 2%N => "2" | 3%N => "3"
  | 4%N => "4" | 5%N => "5" | 6%N => "6" | 7%N => "7"
  | 8%N => "8" | 9%N => "9" | 10%N => "a" | 11%N => "b"
  | 12%N => "c" | 13%N => "d" | 14%N => "e" | _ => "f"
  end%char.

(** ['%0kx' % n] for [n < 16 ^ k]. *)
Fixpoint hex_fixed (k : nat) (n : N) (acc : string) : string :=
  match k with
  | O => acc
  | S k' => hex_fixed k' (n / 16)%N (String (hex_digit (n mod 16)%N) acc)
  end.

(** [UUID.__str__]: the 32 hex digits cut 8-4-4-4-12. *)
Definition uuid_str (i : N) : string :=
  let hex := hex_fixed 32 i "" in
  substring 0 8 hex +:+ "-" +:+ substring 8 4 hex +:+ "-" +:+
  substring 12 4 hex +:+ "-" +:+ substring 16 4 hex +:+ "-" +:+
  substring 20 12 hex.

(** Python truth values of the arguments the service tests with [not]. *)
Definition truthy_str (s : option string) : bool :=
  match s with
  | None => false
  | Some s => negb (bool_decide (s = ""))
  end.

(** What [if bcrypt.checkpw(...)] inside [try ... except Exception] makes of
    the outcome of [checkpw]: only [True] passes. *)
Definition verified (o : outcome bool) : bool :=
  match o with
  | Return true => true
  | _ => false
  end.

Definition truthy_int (n : option nat) : bool :=
  match n with
  | None => false
  | Some n => negb (bool_decide (n = 0))
  end.

(** Sample environments and worlds used to run the model. *)
Definition tape0 (k : nat) : N :=
  (N.of_nat k * 0x9e3779b97f4a7c15f39cc0605cedc835 + 0x1234567890abcdef)%N.

Definition no_fault (n : nat) : option exn := None.

Definition outage (n : nat) : option exn :=
  Some (StoreError "connection refused").

Definition kdf0 (s : N) (password : string) : string :=
  hex_fixed 8 s "" +:+ password.

Definition world0 : World := mkWorld [] [] 0.

(** A password of 73 bytes, one more than bcrypt takes. *)
Definition long_password : string :=
  "aaaaaaaaaaaaaaaaaaaaaaaaaaaaaaaaaaaaaaaaaaaaaaaaaaaaaaaaaaaaaaaaaaaaaaaaa".

Definition alice : Fields :=
  mkFields "alice@example.com" (mkHashed 7 (kdf0 7 "wonderland"))
    (Some "s-alice") (Some "r-alice").

Definition bob : Fields :=
  mkFields "bob@example.com" (mkHashed 9 (kdf0 9 "builder")) None None.

Definition world2 : World := mkWorld [alice; bob] [] 5.

(** The identifier made of the sixth draw of [tape0]. *)
Definition uuid5 : string := uuid_str (uuid4_of (tape0 5 mod 2 ^ 128)).

(** The identifier made of the seventh draw of [tape0]. *)
Definition uuid6 : string := uuid_str (uuid4_of (tape0 6 mod 2 ^ 128)).

Section Service.

(** The entropy source: the [k]-th 16-byte draw of [os.urandom], as a number. *)
Variable urandom : nat -> N.

(** The fault schedule of the store: [db_fault n = Some e] when the call
    number [n] made on the store raises [e] instead of doing its work. *)
Variable db_fault : nat -> option exn.

(** The bcrypt key derivation: salt and password to digest. *)
Variable bcrypt_raw : N -> string -> string.

Definition os_urandom16 : M N :=
  fun w =>
    (Return (urandom (drawn w) mod 2 ^ 128)%N,
     mkWorld (users w) (calls w) (S (drawn w))).

(** *** bcrypt *)

Definition gensalt : M N := os_urandom16.

(** The hash [bcrypt.hashpw] returns when it returns one: the salt and the
    digest made under it. *)
Definition hashed_with (password : string) (s : N) : Hashed :=
  mkHashed s (bcrypt_raw s password).

(** [bcrypt.hashpw(password, salt)]: [ValueError] for a password of more
    than 72 bytes, otherwise the hash. *)
Definition hashpw (password : string) (s : N) : outcome Hashed :=
  if decide (String.length password <= 72)
  then Return (hashed_with password s)
  else Raise (ValueError bcrypt_too_long).

(** [bcrypt.checkpw]: hash again under the salt of [hashed] and compare; the
    [ValueError] of [hashpw] goes through. *)
Definition checkpw (password : string) (hashed : Hashed) : outcome bool :=
  match hashpw password (salt hashed) with
  | Return h => Return (bool_decide (h = hashed))
  | Raise x => Raise x
  end.

(** *** uuid *)

Definition uuid4 : M N :=
  r <- os_urandom16 ;; ret (uuid4_of r).

(** *** The store *)

(** Modelled from the spec: every call on the store is logged, and raises
    what the fault schedule says for a call of that number (section 7:
    store-internal errors such as connectivity errors). *)
Definition db_enter (c : DBCall) : M unit :=
  fun w =>
    match db_fault (length (calls w)) with
    | Some e => (Raise e, log_call c w)
    | None => (Return tt, log_call c w)
    end.

(** Modelled from the spec: [DB.find_user_by] of db.py (section 6,
    findUserBy): the first row that equals the criterion, [NoResultFound]
    when there is none. *)
Definition find_user_by (c : Criterion) : M User :=
  db_enter (CallFind c) ;;;
  fun w =>
    match list_find (matches c) (users w) with
    | Some (i, u) => (Return (mkUser (S i) u), w)
    | None => (Raise NoResultFound, w)
    end.

(** Modelled from the spec: [DB.add_user] of db.py (section 6, addUser):
    inserts a row with no session and no reset token under the next key and
    returns it. *)
Definition add_user (e : string) (h : Hashed) : M User :=
  db_enter (CallAdd e h) ;;;
  fun w =>
    let u := mkFields e h None None in
    (Return (mkUser (S (length (users w))) u),
     mkWorld (users w ++ [u]) (calls w) (drawn w)).

(** Modelled from the spec: [DB.update_user] of db.py (section 6,
    updateUser): partial update of the row of key [uid]; [NoResultFound] when
    there is no such row. *)
Definition update_user (uid : nat) (a : Assignment) : M unit :=
  db_enter (CallUpdate uid a) ;;;
  fun w =>
    match uid with
    | O => (Raise NoResultFound, w)
    | S i =>
        match users w !! i with
        | Some _ =>
            (Return tt, mkWorld (alter (assign a) i (users w)) (calls w) (drawn w))
        | None => (Raise NoResultFound, w)
        end
    end.

(** Modelled from the spec: a [User] returned by a lookup is a reference to
    the record the store owns (section 3), so [user.attr = v] writes that
    record; no call is made on the store. *)
Definition setattr (user : User) (a : Assignment) : M unit :=
  fun w =>
    match id user with
    | O => (Return tt, w)
    | S i =>
        (Return tt,
         mkWorld (alter (assign a) i (users w)) (calls w) (drawn w))
    end.

(** *** auth.py *)

(** [bcrypt.gensalt()] is evaluated before [bcrypt.hashpw] is called: the
    draw is taken also when [hashpw] raises. *)
Definition _hash_password (password : string) : M Hashed :=
  s <- gensalt ;; of_outcome (hashpw password s).

Definition _generate_uuid : M string :=
  u <- uuid4 ;; ret (uuid_str u).

(** The [raise ValueError(...)] sits inside the [try] and is not a
    [NoResultFound]: it leaves the function. *)
Definition register_user (email password : string) : M User :=
  try_except
    (user <- find_user_by (ByEmail email) ;;
     raise (ValueError ("User " +:+ email +:+ " already exists")))
    (except_NoResultFound
       (hashed_pwd <- _hash_password password ;;
        user <- add_user email hashed_pwd ;;
        ret user)).

(** [if user:] holds of every [User] object, so the test on the password is
    the one that decides; an exception of [bcrypt.checkpw] is raised inside
    the [try]. *)
Definition valid_login (email password : string) : M bool :=
  try_except
    (user <- find_user_by (ByEmail email) ;;
     ok <- of_outcome (checkpw password (hashed_password (fields user))) ;;
     if ok then ret true else ret false)
    (except_Exception (ret false)).

Definition create_session (email : string) : M (option string) :=
  try_except
    (user <- find_user_by (ByEmail email) ;;
     session_id <- _generate_uuid ;;
     update_user (id user) (SetSessionId (Some session_id)) ;;;
     ret (Some session_id))
    (except_Exception (ret None)).

(** [not session_id] holds of [None] and of the empty string. *)
Definition get_user_from_session_id (session_id : option string)
  : M (option User) :=
  if negb (truthy_str session_id) then ret None
  else
    match session_id with
    | None => ret None
    | Some s =>
        try_except
          (user <- find_user_by (BySessionId s) ;; ret (Some user))
          (except_Exception (ret None))
    end.

(** [not user_id] holds of [None] and of 0. *)
Definition destroy_session (user_id : option nat) : M unit :=
  if negb (truthy_int user_id) then ret tt
  else
    match user_id with
    | None => ret tt
    | Some uid => update_user uid (SetSessionId None)
    end.

(** The token is written through the [User] object; [update_user] is not
    called.  The bare [raise ValueError] carries no message. *)
Definition get_reset_password_token (email : string) : M string :=
  try_except
    (user <- find_user_by (ByEmail email) ;;
     u <- uuid4 ;;
     let reset_token := uuid_str u in
     setattr user (SetResetToken (Some reset_token)) ;;;
     ret reset_token)
    (except_NoResultFound (raise (ValueError ""))).

Definition update_password (reset_token password : string) : M unit :=
  try_except
    (user <- find_user_by (ByResetToken reset_token) ;;
     h <- _hash_password password ;;
     setattr user (SetHashedPassword h) ;;;
     setattr user (SetResetToken None))
    (except_NoResultFound (raise (ValueError ""))).

(** *** app.py

    The routes, named [app_] and the name of the function.  A route takes the
    values [request.form.get] and [request.cookies.get] gave it; form fields
    are those of a request that carries them, the session cookie may be
    absent. *)

Definition app_index : M Response :=
  ret (Jsonify 200 [("message", "Bienvenue")] []).

Definition app_users (email pwd : string) : M Response :=
  try_except
    (register_user email pwd ;;;
     ret (Jsonify 200 [("email", email); ("message", "user created")] []))
    (except_ValueError
       (ret (Jsonify 400 [("message", "email already registered")] []))).

(** [create_session] may have returned [None]: [set_cookie] then raises and
    the exception leaves the route. *)
Definition app_login (email pwd : string) : M Response :=
  ok <- valid_login email pwd ;;
  if ok then
    session_id <- create_session email ;;
    cookie <- set_cookie "session_id" session_id ;;
    ret (Jsonify 200 [("email", email); ("message", "logged in")] [cookie])
  else ret (Abort 401).

Definition app_logout (session_id : option string) : M Response :=
  if negb (truthy_str session_id) then ret (Abort 403)
  else
    user <- get_user_from_session_id session_id ;;
    match user with
    | None => ret (Abort 403)
    | Some user =>
        destroy_session (Some (id user)) ;;;
        ret (Redirect "/")
    end.

Definition app_profile (session_id : option string) : M Response :=
  if negb (truthy_str session_id) then ret (Abort 403)
  else
    user <- get_user_from_session_id session_id ;;
    match user with
    | None => ret (Abort 403)
    | Some user => ret (Jsonify 200 [("email", email (fields user))] [])
    end.

Definition app_get_reset_password_token (email : string) : M Response :=
  try_except
    (reset_token <- get_reset_password_token email ;;
     ret (Jsonify 200 [("email", email); ("reset_token", reset_token)] []))
    (except_ValueError (ret (Abort 403))).

Definition app_update_password (email new_pwd reset_token : string)
  : M Response :=
  try_except
    (update_password reset_token new_pwd ;;;
     ret (Jsonify 200 [("email", email); ("message", "Password updated")] []))
    (except_ValueError (ret (Abort 403))).

(** The store answers every call: no fault is scheduled. *)
Definition healthy : Prop := forall n, db_fault n = None.

(** ** Running the store *)

Lemma find_user_by_run (c : Criterion) (w : World) :
  find_user_by c w =
  match db_fault (length (calls w)) with
  | Some e => (Raise e, log_call (CallFind c) w)
  | None =>
      match list_find (matches c) (users w) with
      | Some (i, u) => (Return (mkUser (S i) u), log_call (CallFind c) w)
      | None => (Raise NoResultFound, log_call (CallFind c) w)
      end
  end.
Proof.
  unfold find_user_by, bind, db_enter.
  destruct (db_fault (length (calls w))); [reflexivity|].
  simpl. destruct (list_find _ _) as [[i u]|]; reflexivity.
Qed.

Lemma find_user_by_found (c : Criterion) (w : World) i u :
  healthy -> list_find (matches c) (users w) = Some (i, u) ->
  find_user_by c w = (Return (mkUser (S i) u), log_call (CallFind c) w).
Proof. intros Hh Hf. rewrite find_user_by_run, Hh, Hf. reflexivity. Qed.

Lemma find_user_by_missing (c : Criterion) (w : World) :
  healthy -> list_find (matches c) (users w) = None ->
  find_user_by c w = (Raise NoResultFound, log_call (CallFind c) w).
Proof. intros Hh Hf. rewrite find_user_by_run, Hh, Hf. reflexivity. Qed.

Lemma alter_as_insert (f : Fields -> Fields) (l : list Fields) i u :
  l !! i = Some u -> alter f i l = <[i := f u]> l.
Proof.
  intros Hu. apply list_eq. intros j. destruct (decide (j = i)) as [->|Hne].
  - rewrite list_lookup_alter_eq, Hu. simpl.
    rewrite list_lookup_insert_eq; [reflexivity|]. eapply lookup_lt_Some; eauto.
  - rewrite list_lookup_alter_ne by congruence.
    rewrite list_lookup_insert_ne by congruence. reflexivity.
Qed.

Lemma update_user_run (uid : nat) (a : Assignment) (w : World) i u :
  healthy -> uid = S i -> users w !! i = Some u ->
  update_user uid a w =
  (Return tt,
   mkWorld (<[i := assign a u]> (users w))
           (calls w ++ [CallUpdate uid a]) (drawn w)).
Proof.
  intros Hh -> Hu. unfold update_user, bind, db_enter. rewrite Hh. simpl.
  rewrite Hu. by rewrite (alter_as_insert _ _ _ _ Hu).
Qed.

(** ** What a failed lookup does to each operation *)

Lemma valid_login_lookup_raises (e p : string) (w w' : World) (x : exn) :
  find_user_by (ByEmail e) w = (Raise x, w') ->
  valid_login e p w = (Return false, w').
Proof.
  intros Hf. unfold valid_login, try_except, bind. rewrite Hf. reflexivity.
Qed.

Lemma valid_login_lookup_returns (e p : string) (w w' : World) (u : User) :
  find_user_by (ByEmail e) w = (Return u, w') ->
  valid_login e p w =
  (Return (verified (checkpw p (hashed_password (fields u)))), w').
Proof.
  intros Hf. unfold valid_login, try_except, bind, of_outcome. rewrite Hf.
  destruct (checkpw _ _) as [[|]|x]; reflexivity.
Qed.

Lemma create_session_lookup_raises (e : string) (w w' : World) (x : exn) :
  find_user_by (ByEmail e) w = (Raise x, w') ->
  create_session e w = (Return None, w').
Proof.
  intros Hf. unfold create_session, try_except, bind. rewrite Hf. reflexivity.
Qed.

Lemma create_session_lookup_returns (e : string) (w w1 : World) (u : User) :
  find_user_by (ByEmail e) w = (Return u, w1) ->
  create_session e w =
  let s := uuid_str (uuid4_of (urandom (drawn w1) mod 2 ^ 128)) in
  let w2 := mkWorld (users w1) (calls w1) (S (drawn w1)) in
  match update_user (id u) (SetSessionId (Some s)) w2 with
  | (Return _, w3) => (Return (Some s), w3)
  | (Raise _, w3) => (Return None, w3)
  end.
Proof.
  intros Hf. unfold create_session, try_except, bind. rewrite Hf.
  unfold _generate_uuid, uuid4, bind, os_urandom16, ret. simpl.
  destruct (update_user _ _ _) as [[[]|x] w3]; reflexivity.
Qed.

Lemma get_user_lookup_raises (s : string) (w w' : World) (x : exn) :
  s <> "" ->
  find_user_by (BySessionId s) w = (Raise x, w') ->
  get_user_from_session_id (Some s) w = (Return None, w').
Proof.
  intros Hs Hf. unfold get_user_from_session_id, truthy_str.
  rewrite bool_decide_eq_false_2 by exact Hs. simpl.
  unfold try_except, bind. rewrite Hf. reflexivity.
Qed.

Lemma get_user_lookup_returns (s : string) (w w' : World) (u : User) :
  s <> "" ->
  find_user_by (BySessionId s) w = (Return u, w') ->
  get_user_from_session_id (Some s) w = (Return (Some u), w').
Proof.
  intros Hs Hf. unfold get_user_from_session_id, truthy_str.
  rewrite bool_decide_eq_false_2 by exact Hs. simpl.
  unfold try_except, bind. rewrite Hf. reflexivity.
Qed.

Lemma get_user_falsy (sid : option string) (w : World) :
  truthy_str sid = false ->
  get_user_from_session_id sid w = (Return None, w).
Proof.
  intros Hs. unfold get_user_from_session_id. rewrite Hs. reflexivity.
Qed.

Lemma find_user_by_absent_raises (c : Criterion) (w : World) :
  list_find (matches c) (users w) = None ->
  exists x, find_user_by c w = (Raise x, log_call (CallFind c) w).
Proof.
  intros Hn. rewrite find_user_by_run, Hn.
  destruct (db_fault _); eauto.
Qed.

(** ** Lookups in an updated table *)

Lemma list_find_insert_only (c : Criterion) (l : list Fields) i u' :
  i < length l -> matches c u' ->
  (forall j v, l !! j = Some v -> matches c v -> j = i) ->
  list_find (matches c) (<[i := u']> l) = Some (i, u').
Proof.
  intros Hi Hm Huniq. apply list_find_Some. split_and!.
  - by apply list_lookup_insert_eq.
  - exact Hm.
  - intros j y Hj Hlt Hy.
    rewrite list_lookup_insert_ne in Hj by lia.
    specialize (Huniq j y Hj Hy). lia.
Qed.

Lemma list_find_insert_gone (c : Criterion) (l : list Fields) i u' :
  ~ matches c u' ->
  (forall j v, l !! j = Some v -> matches c v -> j = i) ->
  list_find (matches c) (<[i := u']> l) = None.
Proof.
  intros Hm Huniq. apply list_find_None, Forall_lookup. intros j y Hj Hy.
  apply list_lookup_insert_Some in Hj as [(-> & <- & _) | (Hne & Hj)].
  - by apply Hm.
  - apply Hne. symmetry. by apply (Huniq j y).
Qed.

Lemma list_find_snoc_new (c : Criterion) (l : list Fields) u :
  list_find (matches c) l = None -> matches c u ->
  list_find (matches c) (l ++ [u]) = Some (length l, u).
Proof.
  intros Hn Hm. rewrite list_find_app_r by exact Hn. simpl.
  rewrite decide_True by exact Hm. reflexivity.
Qed.

Lemma list_find_email (e : string) (l : list Fields) :
  (exists i u, l !! i = Some u /\ email u = e) ->
  exists i u, list_find (matches (ByEmail e)) l = Some (i, u).
Proof.
  intros (i & u & Hl & He).
  destruct (list_find (matches (ByEmail e)) l) as [[j v]|] eqn:Hf; [eauto|].
  apply list_find_None in Hf. rewrite Forall_lookup in Hf.
  destruct (Hf i u Hl He).
Qed.

Lemma list_find_no_email (e : string) (l : list Fields) :
  (forall i u, l !! i = Some u -> email u <> e) ->
  list_find (matches (ByEmail e)) l = None.
Proof.
  intros Hn. apply list_find_None, Forall_lookup. intros i u Hl.
  exact (Hn i u Hl).
Qed.

(** ** bcrypt and uuid facts *)

Lemma hashpw_accepts (p : string) (s : N) :
  String.length p <= 72 -> hashpw p s = Return (hashed_with p s).
Proof. intros Hp. unfold hashpw. by rewrite decide_True. Qed.

Lemma hashpw_refuses (p : string) (s : N) :
  72 < String.length p -> hashpw p s = Raise (ValueError bcrypt_too_long).
Proof. intros Hp. unfold hashpw. rewrite decide_False; [done|lia]. Qed.

Lemma hashpw_returns (p : string) (s : N) (h : Hashed) :
  hashpw p s = Return h -> String.length p <= 72 /\ h = hashed_with p s.
Proof. unfold hashpw. case_decide; [|discriminate]. by intros [= <-]. Qed.

Lemma checkpw_hashpw (p : string) (s : N) (h : Hashed) :
  hashpw p s = Return h -> checkpw p h = Return true.
Proof.
  intros [Hp ->]%hashpw_returns. unfold checkpw. simpl.
  rewrite (hashpw_accepts _ _ Hp). f_equal. by apply bool_decide_eq_true.
Qed.

Lemma verified_true (o : outcome bool) :
  verified o = true <-> o = Return true.
Proof. destruct o as [[|]|x]; simpl; split; congruence. Qed.

Lemma uuid_str_nonempty (i : N) : uuid_str i <> "".
Proof.
  unfold uuid_str. generalize (hex_fixed 32 i ""). intros hex.
  generalize (substring 0 8 hex). intros [|a pre]; discriminate.
Qed.

(** ** Running the operations on a healthy store *)

Lemma register_user_existing (e p : string) (w : World) i u :
  healthy -> list_find (matches (ByEmail e)) (users w) = Some (i, u) ->
  register_user e p w =
  (Raise (ValueError ("User " +:+ e +:+ " already exists")),
   log_call (CallFind (ByEmail e)) w).
Proof.
  intros Hh Hf. unfold register_user, try_except, bind.
  rewrite (find_user_by_found _ _ _ _ Hh Hf). reflexivity.
Qed.

Lemma register_user_new (e p : string) (w : World) :
  healthy -> list_find (matches (ByEmail e)) (users w) = None ->
  String.length p <= 72 ->
  register_user e p w =
  let h := hashed_with p (urandom (drawn w) mod 2 ^ 128) in
  let u := mkFields e h None None in
  (Return (mkUser (S (length (users w))) u),
   mkWorld (users w ++ [u])
           (calls w ++ [CallFind (ByEmail e)] ++ [CallAdd e h])
           (S (drawn w))).
Proof.
  intros Hh Hf Hp. unfold register_user, try_except, bind.
  rewrite (find_user_by_missing _ _ Hh Hf). simpl.
  unfold _hash_password, gensalt, os_urandom16, add_user, db_enter, bind, ret,
    of_outcome.
  simpl. rewrite (hashpw_accepts _ _ Hp), Hh. simpl. by rewrite <- app_assoc.
Qed.

Lemma register_user_refused (e p : string) (w : World) :
  healthy -> list_find (matches (ByEmail e)) (users w) = None ->
  72 < String.length p ->
  register_user e p w =
  (Raise (ValueError bcrypt_too_long),
   mkWorld (users w) (calls w ++ [CallFind (ByEmail e)]) (S (drawn w))).
Proof.
  intros Hh Hf Hp. unfold register_user, try_except, bind.
  rewrite (find_user_by_missing _ _ Hh Hf). simpl.
  unfold _hash_password, gensalt, os_urandom16, bind, of_outcome.
  simpl. by rewrite (hashpw_refuses _ _ Hp).
Qed.

Lemma create_session_found (e : string) (w : World) i u :
  healthy -> list_find (matches (ByEmail e)) (users w) = Some (i, u) ->
  create_session e w =
  let s := uuid_str (uuid4_of (urandom (drawn w) mod 2 ^ 128)) in
  (Return (Some s),
   mkWorld (<[i := assign (SetSessionId (Some s)) u]> (users w))
           (calls w ++ [CallFind (ByEmail e)] ++
              [CallUpdate (S i) (SetSessionId (Some s))])
           (S (drawn w))).
Proof.
  intros Hh Hf.
  rewrite (create_session_lookup_returns _ _ _ _ (find_user_by_found _ _ _ _ Hh Hf)).
  simpl. apply list_find_Some in Hf as (Hl & _ & _).
  erewrite update_user_run; [|exact Hh|reflexivity|exact Hl].
  simpl. by rewrite <- app_assoc.
Qed.

Lemma get_user_found (s : string) (w : World) i u :
  healthy -> s <> "" ->
  list_find (matches (BySessionId s)) (users w) = Some (i, u) ->
  get_user_from_session_id (Some s) w =
  (Return (Some (mkUser (S i) u)), log_call (CallFind (BySessionId s)) w).
Proof.
  intros Hh Hs Hf.
  exact (get_user_lookup_returns _ _ _ _ Hs (find_user_by_found _ _ _ _ Hh Hf)).
Qed.

Lemma get_user_missing (s : string) (w : World) :
  list_find (matches (BySessionId s)) (users w) = None ->
  get_user_from_session_id (Some s) w =
  (Return None,
   if decide (s = "") then w else log_call (CallFind (BySessionId s)) w).
Proof.
  intros Hf. destruct (decide (s = "")) as [->|Hs].
  - by apply get_user_falsy.
  - destruct (find_user_by_absent_raises _ _ Hf) as [x Hx].
    exact (get_user_lookup_raises _ _ _ _ Hs Hx).
Qed.

Lemma destroy_session_found (w : World) i u :
  healthy -> users w !! i = Some u ->
  destroy_session (Some (S i)) w =
  (Return tt,
   mkWorld (<[i := assign (SetSessionId None) u]> (users w))
           (calls w ++ [CallUpdate (S i) (SetSessionId None)]) (drawn w)).
Proof.
  intros Hh Hl.
  exact (update_user_run (S i) (SetSessionId None) w i u Hh eq_refl Hl).
Qed.

Lemma get_reset_password_token_found (e : string) (w : World) i u :
  healthy -> list_find (matches (ByEmail e)) (users w) = Some (i, u) ->
  get_reset_password_token e w =
  let t := uuid_str (uuid4_of (urandom (drawn w) mod 2 ^ 128)) in
  (Return t,
   mkWorld (<[i := assign (SetResetToken (Some t)) u]> (users w))
           (calls w ++ [CallFind (ByEmail e)]) (S (drawn w))).
Proof.
  intros Hh Hf. unfold get_reset_password_token, try_except, bind.
  rewrite (find_user_by_found _ _ _ _ Hh Hf). simpl.
  apply list_find_Some in Hf as (Hl & _ & _).
  by rewrite (alter_as_insert _ _ _ _ Hl).
Qed.

Lemma update_password_found (t p : string) (w : World) i u :
  healthy -> list_find (matches (ByResetToken t)) (users w) = Some (i, u) ->
  String.length p <= 72 ->
  update_password t p w =
  let h := hashed_with p (urandom (drawn w) mod 2 ^ 128) in
  (Return tt,
   mkWorld (<[i := mkFields (email u) h (session_id u) None]> (users w))
           (calls w ++ [CallFind (ByResetToken t)]) (S (drawn w))).
Proof.
  intros Hh Hf Hp. unfold update_password, try_except, bind.
  rewrite (find_user_by_found _ _ _ _ Hh Hf). simpl.
  unfold _hash_password, gensalt, os_urandom16, bind, of_outcome. simpl.
  rewrite (hashpw_accepts _ _ Hp). simpl.
  apply list_find_Some in Hf as (Hl & _ & _).
  rewrite list_alter_alter_eq, (alter_as_insert _ _ _ _ Hl). reflexivity.
Qed.

Lemma update_password_refused (t p : string) (w : World) i u :
  healthy -> list_find (matches (ByResetToken t)) (users w) = Some (i, u) ->
  72 < String.length p ->
  update_password t p w =
  (Raise (ValueError bcrypt_too_long),
   mkWorld (users w) (calls w ++ [CallFind (ByResetToken t)]) (S (drawn w))).
Proof.
  intros Hh Hf Hp. unfold update_password, try_except, bind.
  rewrite (find_user_by_found _ _ _ _ Hh Hf). simpl.
  unfold _hash_password, gensalt, os_urandom16, bind, of_outcome. simpl.
  by rewrite (hashpw_refuses _ _ Hp).
Qed.

Lemma lookup_raises_converted (A : Type) (c : Criterion)
    (k : User -> M A) (w w' : World) (x : exn) :
  find_user_by c w = (Raise x, w') ->
  try_except (user <- find_user_by c ;; k user)
    (except_NoResultFound (raise (ValueError ""))) w =
  (Raise match x with NoResultFound => ValueError "" | _ => x end, w').
Proof.
  intros Hf. unfold try_except, bind. rewrite Hf. destruct x; reflexivity.
Qed.

(** ** The claims *)

(** C10: a falsy [session_id] argument, [None] as well as the empty string,
    makes [get_user_from_session_id] return [None] at once: the world is left
    as it was, so the log of store calls has not grown and no lookup was made,
    whatever the table holds and whatever the store would have answered. *)
Theorem get_user_from_session_id_falsy (sid : option string) (w : World) :
  sid = None \/ sid = Some "" ->
  get_user_from_session_id sid w = (Return None, w) /\
  calls (snd (get_user_from_session_id sid w)) = calls w.
Proof.
  intros Hs.
  assert (Hr : get_user_from_session_id sid w = (Return None, w)).
  { apply get_user_falsy. destruct Hs as [-> | ->]; reflexivity. }
  rewrite Hr. split; reflexivity.
Qed.

(** C4: the three absorbing operations never raise.  [valid_login] returns
    [False] when no user has the email, when the lookup raises anything at
    all, and when the password does not verify ([bcrypt.checkpw] returns
    [False] or raises); [create_session] returns
    [None] when the lookup raises and when the update raises;
    [get_user_from_session_id] returns [None] when the lookup raises.  This
    holds for every fault schedule of the store. *)
Theorem lookup_failures_absorbed (e p : string) (sid : option string) (w : World) :
  ((exists b w', valid_login e p w = (Return b, w')) /\
   (list_find (matches (ByEmail e)) (users w) = None ->
    fst (valid_login e p w) = Return false) /\
   (forall x w', find_user_by (ByEmail e) w = (Raise x, w') ->
    fst (valid_login e p w) = Return false) /\
   (forall u w', find_user_by (ByEmail e) w = (Return u, w') ->
    checkpw p (hashed_password (fields u)) <> Return true ->
    fst (valid_login e p w) = Return false)) /\
  ((exists r w', create_session e w = (Return r, w')) /\
   (forall x w', find_user_by (ByEmail e) w = (Raise x, w') ->
    fst (create_session e w) = Return None) /\
   (forall u w1 s w2 x w3,
      find_user_by (ByEmail e) w = (Return u, w1) ->
      _generate_uuid w1 = (Return s, w2) ->
      update_user (id u) (SetSessionId (Some s)) w2 = (Raise x, w3) ->
      fst (create_session e w) = Return None)) /\
  ((exists r w', get_user_from_session_id sid w = (Return r, w')) /\
   (forall s x w', sid = Some s ->
      find_user_by (BySessionId s) w = (Raise x, w') ->
      fst (get_user_from_session_id sid w) = Return None)).
Proof.
  split; [|split].
  - split; [|split; [|split]].
    + destruct (find_user_by (ByEmail e) w) as [[u|x] w'] eqn:Hf.
      * rewrite (valid_login_lookup_returns _ _ _ _ _ Hf). eauto.
      * rewrite (valid_login_lookup_raises _ _ _ _ _ Hf). eauto.
    + intros Hn. destruct (find_user_by_absent_raises _ _ Hn) as [x Hf].
      by rewrite (valid_login_lookup_raises _ _ _ _ _ Hf).
    + intros x w' Hf. by rewrite (valid_login_lookup_raises _ _ _ _ _ Hf).
    + intros u w' Hf Hc.
      rewrite (valid_login_lookup_returns _ _ _ _ _ Hf). simpl.
      destruct (verified _) eqn:Hv; [|reflexivity].
      by apply verified_true in Hv.
  - split; [|split].
    + destruct (find_user_by (ByEmail e) w) as [[u|x] w'] eqn:Hf.
      * rewrite (create_session_lookup_returns _ _ _ _ Hf). simpl.
        destruct (update_user _ _ _) as [[[]|y] w3]; eauto.
      * rewrite (create_session_lookup_raises _ _ _ _ Hf). eauto.
    + intros x w' Hf. by rewrite (create_session_lookup_raises _ _ _ _ Hf).
    + intros u w1 s w2 x w3 Hf Hg Hu.
      rewrite (create_session_lookup_returns _ _ _ _ Hf). simpl.
      unfold _generate_uuid, uuid4, bind, os_urandom16, ret in Hg.
      injection Hg as <- <-. rewrite Hu. reflexivity.
  - split.
    + destruct (truthy_str sid) eqn:Ht.
      * destruct sid as [s|]; [|discriminate]. simpl in Ht.
        apply negb_true_iff, bool_decide_eq_false in Ht.
        destruct (find_user_by (BySessionId s) w) as [[u|x] w'] eqn:Hf.
        -- rewrite (get_user_lookup_returns _ _ _ _ Ht Hf). eauto.
        -- rewrite (get_user_lookup_raises _ _ _ _ Ht Hf). eauto.
      * rewrite (get_user_falsy _ _ Ht). eauto.
    + intros s x w' -> Hf. destruct (decide (s = "")) as [->|Hs].
      * by rewrite get_user_falsy.
      * by rewrite (get_user_lookup_raises _ _ _ _ Hs Hf).
Qed.

(** C1: on a store that answers, when [register_user email password]
    succeeds, which it does only when no user had that email, the call
    [valid_login email password] made next returns [True]. *)
Theorem register_then_valid_login (e p : string) (w w1 : World) (u : User) :
  healthy ->
  register_user e p w = (Return u, w1) ->
  list_find (matches (ByEmail e)) (users w) = None /\
  fst (valid_login e p w1) = Return true.
Proof.
  intros Hh Hr.
  destruct (list_find (matches (ByEmail e)) (users w)) as [[i v]|] eqn:Hf.
  { rewrite (register_user_existing _ _ _ _ _ Hh Hf) in Hr. discriminate. }
  split; [reflexivity|].
  destruct (decide (String.length p <= 72)) as [Hp|Hp].
  2:{ rewrite (register_user_refused _ _ _ Hh Hf) in Hr by lia.
      discriminate. }
  rewrite (register_user_new _ _ _ Hh Hf Hp) in Hr. simpl in Hr.
  injection Hr as _ <-.
  erewrite valid_login_lookup_returns.
  2:{ apply find_user_by_found; [exact Hh|]. simpl.
      apply list_find_snoc_new; [exact Hf|reflexivity]. }
  simpl. by rewrite (checkpw_hashpw _ _ _ (hashpw_accepts _ _ Hp)).
Qed.

(** C3, as amended: on a store that answers, [register_user] on an email
    some user already has raises [ValueError("User <email> already exists")]
    and leaves the table and the entropy position as they were, so every
    record is unchanged.  On an email no user has, with a password of at most
    72 bytes, it appends exactly one record, with that email, a hash that
    verifies the password, no session id and no reset token, and returns it;
    with a longer password it raises the [ValueError] of [bcrypt.hashpw] and
    the table is unchanged. *)
Theorem register_user_email_unique (e p : string) (w : World) :
  healthy ->
  ((exists i u, users w !! i = Some u /\ email u = e) ->
   exists w',
     register_user e p w =
       (Raise (ValueError ("User " +:+ e +:+ " already exists")), w') /\
     users w' = users w /\ drawn w' = drawn w) /\
  ((forall i u, users w !! i = Some u -> email u <> e) ->
   (String.length p <= 72 ->
    exists h w',
      register_user e p w =
        (Return (mkUser (S (length (users w))) (mkFields e h None None)),
         w') /\
      users w' = (users w ++ [mkFields e h None None])%list /\
      checkpw p h = Return true) /\
   (72 < String.length p ->
    exists w',
      register_user e p w = (Raise (ValueError bcrypt_too_long), w') /\
      users w' = users w)).
Proof.
  intros Hh. split.
  - intros Hex. destruct (list_find_email _ _ Hex) as (i & u & Hf).
    rewrite (register_user_existing _ _ _ _ _ Hh Hf). eauto.
  - intros Hno. pose proof (list_find_no_email _ _ Hno) as Hf. split.
    + intros Hp. rewrite (register_user_new _ _ _ Hh Hf Hp). simpl.
      eexists _, _. split_and!; [reflexivity|reflexivity|].
      exact (checkpw_hashpw _ _ _ (hashpw_accepts _ _ Hp)).
    + intros Hp. rewrite (register_user_refused _ _ _ Hh Hf Hp). eauto.
Qed.

(** C5: on a store that answers, when the lookup by email yields the user of
    index [i], [create_session] draws the next unused 16 bytes of entropy,
    returns the UUID made of them, and the table afterwards is the old one
    with that identifier written over the [session_id] of that user, whatever
    it held before. *)
Theorem create_session_persists (e : string) (w : World) (i : nat) (u : Fields) :
  healthy ->
  list_find (matches (ByEmail e)) (users w) = Some (i, u) ->
  exists s w',
    create_session e w = (Return (Some s), w') /\
    s = uuid_str (uuid4_of (urandom (drawn w) mod 2 ^ 128)) /\
    drawn w' = S (drawn w) /\
    users w' =
      <[i := mkFields (email u) (hashed_password u) (Some s) (reset_token u)]>
        (users w) /\
    users w' !! i =
      Some (mkFields (email u) (hashed_password u) (Some s) (reset_token u)).
Proof.
  intros Hh Hf. rewrite (create_session_found _ _ _ _ Hh Hf). simpl.
  eexists _, _. split_and!; try reflexivity. simpl.
  apply list_lookup_insert_eq. apply list_find_Some in Hf as (Hl & _).
  eapply lookup_lt_Some; eauto.
Qed.

(** C6: on a store that answers, when the lookup by email yields the user of
    index [i] and [create_session] returns the token [s], and no other user's
    record carries [s] already (identifiers are unique), then
    [get_user_from_session_id s] returns that user: the same key, the same
    record but for the session id, which is [s].  On an email no user has,
    [create_session] returns [None] and the table is unchanged. *)
Theorem session_round_trip (e : string) (w : World) :
  healthy ->
  (forall i u s w1,
     list_find (matches (ByEmail e)) (users w) = Some (i, u) ->
     create_session e w = (Return (Some s), w1) ->
     (forall j v, users w !! j = Some v -> session_id v = Some s -> j = i) ->
     fst (get_user_from_session_id (Some s) w1) =
       Return (Some (mkUser (S i)
         (mkFields (email u) (hashed_password u) (Some s) (reset_token u)))) /\
     users w1 !! i =
       Some (mkFields (email u) (hashed_password u) (Some s) (reset_token u))) /\
  ((forall i u, users w !! i = Some u -> email u <> e) ->
   exists w1, create_session e w = (Return None, w1) /\ users w1 = users w).
Proof.
  intros Hh. split.
  - intros i u s w1 Hf Hc Hfresh.
    rewrite (create_session_found _ _ _ _ Hh Hf) in Hc. simpl in Hc.
    injection Hc as Hs <-. 
    assert (Hne : s <> "") by (rewrite <- Hs; apply uuid_str_nonempty).
    rewrite Hs.
    pose proof Hf as (Hl & _)%list_find_Some.
    pose proof (lookup_lt_Some _ _ _ Hl) as Hlt.
    split; [|by apply list_lookup_insert_eq].
    erewrite get_user_found; [reflexivity|exact Hh|exact Hne|]. simpl.
    apply list_find_insert_only; [exact Hlt|reflexivity|exact Hfresh].
  - intros Hno. pose proof (list_find_no_email _ _ Hno) as Hf.
    rewrite (create_session_lookup_raises _ _ _ _
               (find_user_by_missing _ _ Hh Hf)).
    eauto.
Qed.

(** C7: on a store that answers, [destroy_session] on the key of a user who
    holds the session token [tok] sets that user's [session_id] to [None] and
    nothing else: the email, the hash and the reset token of that user and
    every other record are as before.  When [tok] was that user's alone,
    [get_user_from_session_id tok] then returns [None]. *)
Theorem destroy_session_frame (w : World) (i : nat) (u : Fields) (tok : string) :
  healthy ->
  users w !! i = Some u ->
  session_id u = Some tok ->
  exists w1,
    destroy_session (Some (S i)) w = (Return tt, w1) /\
    users w1 !! i =
      Some (mkFields (email u) (hashed_password u) None (reset_token u)) /\
    (forall j, j <> i -> users w1 !! j = users w !! j) /\
    length (users w1) = length (users w) /\
    drawn w1 = drawn w /\
    ((forall j v, users w !! j = Some v -> session_id v = Some tok -> j = i) ->
     fst (get_user_from_session_id (Some tok) w1) = Return None).
Proof.
  intros Hh Hl Hs. rewrite (destroy_session_found _ _ _ Hh Hl). simpl.
  pose proof (lookup_lt_Some _ _ _ Hl) as Hlt.
  eexists. split_and!; [reflexivity| | | |reflexivity|]; simpl.
  - by apply list_lookup_insert_eq.
  - intros j Hj. by apply list_lookup_insert_ne.
  - apply length_insert.
  - intros Huniq. rewrite get_user_missing; [reflexivity|]. simpl.
    apply list_find_insert_gone; [|exact Huniq]. simpl. discriminate.
Qed.

(** C8: on a store that answers, when the lookup by email yields the user of
    index [i], [get_reset_password_token] draws the next unused 16 bytes of
    entropy, writes the UUID made of them into the [reset_token] of that
    user's record and returns it; on an email no user has it raises the bare
    [ValueError] and the table is unchanged. *)
Theorem get_reset_password_token_stores (e : string) (w : World) :
  healthy ->
  (forall i u,
     list_find (matches (ByEmail e)) (users w) = Some (i, u) ->
     exists t w1,
       get_reset_password_token e w = (Return t, w1) /\
       t = uuid_str (uuid4_of (urandom (drawn w) mod 2 ^ 128)) /\
       drawn w1 = S (drawn w) /\
       users w1 =
         <[i := mkFields (email u) (hashed_password u) (session_id u) (Some t)]>
           (users w) /\
       users w1 !! i =
         Some (mkFields (email u) (hashed_password u) (session_id u) (Some t))) /\
  ((forall i u, users w !! i = Some u -> email u <> e) ->
   exists w1,
     get_reset_password_token e w = (Raise (ValueError ""), w1) /\
     users w1 = users w).
Proof.
  intros Hh. split.
  - intros i u Hf. rewrite (get_reset_password_token_found _ _ _ _ Hh Hf). simpl.
    eexists _, _. split_and!; try reflexivity. simpl.
    apply list_lookup_insert_eq. apply list_find_Some in Hf as (Hl & _).
    eapply lookup_lt_Some; eauto.
  - intros Hno. pose proof (list_find_no_email _ _ Hno) as Hf.
    unfold get_reset_password_token, try_except, bind.
    rewrite (find_user_by_missing _ _ Hh Hf). simpl. eauto.
Qed.

(** C2, as amended: on a store that answers, when the lookup by reset token
    [t] yields the user of index [i] and the new password [p] has at most 72
    bytes, [update_password t p] succeeds, the stored hash of that user
    becomes a fresh hash of [p], one that verifies [p], and the stored reset
    token becomes [None]; nothing else in the record changes.  When no other
    user held the token (tokens are unique), a second call with the same
    token and any password then raises the bare [ValueError] and changes no
    record.  When [p] has more than 72 bytes, [update_password t p] raises
    the [ValueError] of [bcrypt.hashpw] and the table is unchanged: the hash
    and the reset token are as they were. *)
Theorem update_password_single_use (t p p' : string) (w : World)
    (i : nat) (u : Fields) :
  healthy ->
  list_find (matches (ByResetToken t)) (users w) = Some (i, u) ->
  (String.length p <= 72 ->
   exists h w1,
     update_password t p w = (Return tt, w1) /\
     hashpw p (urandom (drawn w) mod 2 ^ 128) = Return h /\
     checkpw p h = Return true /\
     users w1 = <[i := mkFields (email u) h (session_id u) None]> (users w) /\
     users w1 !! i = Some (mkFields (email u) h (session_id u) None) /\
     ((forall j v, users w !! j = Some v -> reset_token v = Some t -> j = i) ->
      exists w2,
        update_password t p' w1 = (Raise (ValueError ""), w2) /\
        users w2 = users w1)) /\
  (72 < String.length p ->
   exists w1,
     update_password t p w = (Raise (ValueError bcrypt_too_long), w1) /\
     users w1 = users w).
Proof.
  intros Hh Hf.
  pose proof Hf as (Hl & _ & _)%list_find_Some.
  pose proof (lookup_lt_Some _ _ _ Hl) as Hlt.
  split.
  - intros Hp. rewrite (update_password_found _ p _ _ _ Hh Hf Hp). simpl.
    eexists _, _. split_and!; [reflexivity| | |reflexivity| |].
    + exact (hashpw_accepts _ _ Hp).
    + exact (checkpw_hashpw _ _ _ (hashpw_accepts _ _ Hp)).
    + simpl. by apply list_lookup_insert_eq.
    + intros Huniq. unfold update_password, try_except, bind.
      rewrite find_user_by_missing; [simpl; eauto|exact Hh|]. simpl.
      apply list_find_insert_gone; [|exact Huniq]. simpl. discriminate.
  - intros Hp. rewrite (update_password_refused _ p _ _ _ Hh Hf Hp). eauto.
Qed.

(** C9, as amended: when the lookup raises, [valid_login], [create_session]
    and [get_user_from_session_id] give the outcome of a simple not-found
    ([False], [None]) whatever was raised; [get_reset_password_token] and
    [update_password] turn [NoResultFound], and only it, into the bare
    [ValueError], and let any other exception of the store reach the caller
    as it is. *)
Theorem lookup_failure_outcomes (e t p s : string) (w w' : World) (x : exn) :
  (find_user_by (ByEmail e) w = (Raise x, w') ->
   valid_login e p w = (Return false, w') /\
   create_session e w = (Return None, w') /\
   get_reset_password_token e w =
     (Raise match x with NoResultFound => ValueError "" | _ => x end, w')) /\
  (find_user_by (BySessionId s) w = (Raise x, w') ->
   fst (get_user_from_session_id (Some s) w) = Return None) /\
  (find_user_by (ByResetToken t) w = (Raise x, w') ->
   update_password t p w =
     (Raise match x with NoResultFound => ValueError "" | _ => x end, w')).
Proof.
  split_and!.
  - intros Hf. split_and!.
    + by apply valid_login_lookup_raises with x.
    + by apply create_session_lookup_raises with x.
    + by apply lookup_raises_converted.
  - intros Hf. destruct (decide (s = "")) as [->|Hs].
    + by rewrite get_user_falsy.
    + by rewrite (get_user_lookup_raises _ _ _ _ Hs Hf).
  - intros Hf. by apply lookup_raises_converted.
Qed.

(** ** Frames: what an operation can and cannot touch *)

Lemma find_user_by_world (c : Criterion) (w w' : World) (r : outcome User) :
  find_user_by c w = (r, w') -> w' = log_call (CallFind c) w.
Proof.
  rewrite find_user_by_run. intros H. repeat case_match; congruence.
Qed.

Lemma find_user_by_inv (c : Criterion) (w w' : World) (u : User) :
  find_user_by c w = (Return u, w') ->
  exists i v,
    u = mkUser (S i) v /\ list_find (matches c) (users w) = Some (i, v).
Proof.
  rewrite find_user_by_run. intros H. repeat case_match; try congruence.
  injection H as <- _. eauto.
Qed.

Lemma find_user_by_answered (c : Criterion) (w w' : World) (u : User) :
  find_user_by c w = (Return u, w') -> db_fault (length (calls w)) = None.
Proof.
  rewrite find_user_by_run. intros H. repeat case_match; congruence.
Qed.

Lemma fmap_alter_frame {B : Type} (g : Fields -> B) (a : Assignment)
    (i : nat) (l : list Fields) :
  (forall u, g (assign a u) = g u) ->
  g <$> alter (assign a) i l = g <$> l.
Proof.
  intros Hg. apply list_eq. intros j. rewrite !list_lookup_fmap.
  destruct (decide (i = j)) as [->|Hne].
  - rewrite list_lookup_alter_eq. destruct (l !! j); simpl; [|reflexivity].
    by rewrite Hg.
  - by rewrite list_lookup_alter_ne.
Qed.

Lemma update_user_world (uid : nat) (a : Assignment) (w w' : World)
    (r : outcome unit) :
  update_user uid a w = (r, w') ->
  drawn w' = drawn w /\
  (users w' = users w \/ exists i, users w' = alter (assign a) i (users w)).
Proof.
  unfold update_user, bind, db_enter. intros H.
  repeat case_match; simplify_eq; simpl; eauto.
Qed.

Lemma create_session_world (e : string) (w : World) :
  let s := uuid_str (uuid4_of (urandom (drawn w) mod 2 ^ 128)) in
  users (snd (create_session e w)) = users w \/
  exists i,
    users (snd (create_session e w)) =
    alter (assign (SetSessionId (Some s))) i (users w).
Proof.
  destruct (find_user_by (ByEmail e) w) as [[u|x] w1] eqn:Hf.
  - rewrite (create_session_lookup_returns _ _ _ _ Hf). simpl.
    apply find_user_by_world in Hf as ->.
    destruct (update_user _ _ _) as [[[]|y] w3] eqn:Hu; simpl;
      apply update_user_world in Hu as [_ [-> | [i ->]]]; simpl; eauto.
  - rewrite (create_session_lookup_raises _ _ _ _ Hf). simpl.
    apply find_user_by_world in Hf as ->. by left.
Qed.

Lemma destroy_session_world (uid : option nat) (w : World) :
  drawn (snd (destroy_session uid w)) = drawn w /\
  (users (snd (destroy_session uid w)) = users w \/
   exists i,
     users (snd (destroy_session uid w)) =
     alter (assign (SetSessionId None)) i (users w)).
Proof.
  unfold destroy_session. destruct (negb (truthy_int uid)); [simpl; eauto|].
  destruct uid as [n|]; [|simpl; eauto].
  destruct (update_user n (SetSessionId None) w) as [r w'] eqn:Hu.
  exact (update_user_world _ _ _ _ _ Hu).
Qed.

Lemma get_reset_password_token_world (e : string) (w : World) :
  users (snd (get_reset_password_token e w)) = users w \/
  exists i t,
    users (snd (get_reset_password_token e w)) =
    alter (assign (SetResetToken (Some t))) i (users w).
Proof.
  unfold get_reset_password_token, try_except, bind.
  destruct (find_user_by (ByEmail e) w) as [[u|x] w1] eqn:Hf.
  - apply find_user_by_inv in Hf as Hu. destruct Hu as (i & v & -> & _).
    apply find_user_by_world in Hf as ->. simpl. eauto.
  - apply find_user_by_world in Hf as ->. destruct x; simpl; eauto.
Qed.

Lemma update_password_world (t p : string) (w : World) :
  users (snd (update_password t p w)) = users w \/
  exists i h,
    users (snd (update_password t p w)) =
    alter (assign (SetResetToken None)) i
      (alter (assign (SetHashedPassword h)) i (users w)).
Proof.
  unfold update_password, try_except, bind.
  destruct (find_user_by (ByResetToken t) w) as [[u|x] w1] eqn:Hf.
  - apply find_user_by_inv in Hf as Hu. destruct Hu as (i & v & -> & _).
    apply find_user_by_world in Hf as ->.
    unfold _hash_password, gensalt, os_urandom16, bind, of_outcome. simpl.
    destruct (hashpw p _) as [h|x]; simpl; eauto.
    destruct x; simpl; eauto.
  - apply find_user_by_world in Hf as ->. destruct x; simpl; eauto.
Qed.

Lemma register_user_world (e p : string) (w : World) :
  users (snd (register_user e p w)) = users w \/
  exists h,
    users (snd (register_user e p w)) =
    (users w ++ [mkFields e h None None])%list.
Proof.
  unfold register_user, try_except, bind.
  destruct (find_user_by (ByEmail e) w) as [[u|x] w1] eqn:Hf;
    apply find_user_by_world in Hf as ->; simpl; [by left|].
  destruct x; simpl; [|by left..].
  unfold _hash_password, gensalt, os_urandom16, bind, of_outcome. simpl.
  destruct (hashpw p _) as [h|x]; simpl; [|by left].
  unfold add_user, bind, db_enter. simpl.
  destruct (db_fault _); simpl; eauto.
Qed.

(** ** Further properties of auth.py *)

(** X1: [destroy_session] on a falsy [user_id], [None] or 0, is a no-op that
    makes no call on the store.  On any other id it makes exactly one call,
    the update of [session_id] to [None], and it has no [try]: when the store
    fails on that call, the store's exception leaves [destroy_session]. *)
Theorem destroy_session_falsy (uid : option nat) (w : World) :
  (uid = None \/ uid = Some 0 -> destroy_session uid w = (Return tt, w)) /\
  (forall n, uid = Some (S n) ->
     calls (snd (destroy_session uid w)) =
       (calls w ++ [CallUpdate (S n) (SetSessionId None)])%list /\
     (forall x, db_fault (length (calls w)) = Some x ->
        fst (destroy_session uid w) = Raise x)).
Proof.
  split.
  - intros [-> | ->]; reflexivity.
  - intros n ->. unfold destroy_session. simpl.
    unfold update_user, bind, db_enter. split.
    + repeat case_match; simplify_eq; reflexivity.
    + intros x ->. reflexivity.
Qed.

(** X2: [valid_login] and [get_user_from_session_id] only read.  Whatever
    the store does, the table and the entropy position are as before;
    [valid_login] makes exactly one call on the store, the lookup by email,
    and [get_user_from_session_id] at most one. *)
Theorem lookups_read_only (e p : string) (sid : option string) (w : World) :
  (users (snd (valid_login e p w)) = users w /\
   drawn (snd (valid_login e p w)) = drawn w /\
   calls (snd (valid_login e p w)) =
     (calls w ++ [CallFind (ByEmail e)])%list) /\
  (users (snd (get_user_from_session_id sid w)) = users w /\
   drawn (snd (get_user_from_session_id sid w)) = drawn w /\
   length (calls (snd (get_user_from_session_id sid w))) <=
     S (length (calls w))).
Proof.
  split.
  - destruct (find_user_by (ByEmail e) w) as [[u|x] w1] eqn:Hf.
    + rewrite (valid_login_lookup_returns _ _ _ _ _ Hf).
      apply find_user_by_world in Hf as ->. done.
    + rewrite (valid_login_lookup_raises _ _ _ _ _ Hf).
      apply find_user_by_world in Hf as ->. done.
  - destruct (truthy_str sid) eqn:Ht.
    + destruct sid as [s|]; [|discriminate]. simpl in Ht.
      apply negb_true_iff, bool_decide_eq_false in Ht.
      destruct (find_user_by (BySessionId s) w) as [[u|x] w1] eqn:Hf.
      * rewrite (get_user_lookup_returns _ _ _ _ Ht Hf).
        apply find_user_by_world in Hf as ->. simpl.
        rewrite length_app. simpl. split_and!; [done..|lia].
      * rewrite (get_user_lookup_raises _ _ _ _ Ht Hf).
        apply find_user_by_world in Hf as ->. simpl.
        rewrite length_app. simpl. split_and!; [done..|lia].
    + rewrite (get_user_falsy _ _ Ht). simpl. split_and!; [done..|lia].
Qed.

(** X3: the session operations touch the session only.  Whatever the store
    does, after [create_session] and after [destroy_session] every row has the
    email, the hash and the reset token it had, and no row is added or
    removed. *)
Theorem session_operations_frame (e : string) (uid : option nat) (w : World) :
  (fun u => (email u, hashed_password u, reset_token u)) <$>
    users (snd (create_session e w)) =
  (fun u => (email u, hashed_password u, reset_token u)) <$> users w /\
  (fun u => (email u, hashed_password u, reset_token u)) <$>
    users (snd (destroy_session uid w)) =
  (fun u => (email u, hashed_password u, reset_token u)) <$> users w.
Proof.
  split.
  - destruct (create_session_world e w) as [-> | [i ->]]; [done|].
    by apply fmap_alter_frame.
  - destruct (destroy_session_world uid w) as [_ [-> | [i ->]]]; [done|].
    by apply fmap_alter_frame.
Qed.

(** X4: the reset operations never touch the session.  Whatever the store
    does, after [get_reset_password_token] every row has the email, the hash
    and the session id it had; after [update_password] every row has the
    email and the session id it had; no row is added or removed. *)
Theorem reset_operations_frame (e t p : string) (w : World) :
  (fun u => (email u, hashed_password u, session_id u)) <$>
    users (snd (get_reset_password_token e w)) =
  (fun u => (email u, hashed_password u, session_id u)) <$> users w /\
  (fun u => (email u, session_id u)) <$>
    users (snd (update_password t p w)) =
  (fun u => (email u, session_id u)) <$> users w.
Proof.
  split.
  - destruct (get_reset_password_token_world e w) as [-> | (i & t' & ->)];
      [done|]. by apply fmap_alter_frame.
  - destruct (update_password_world t p w) as [-> | (i & h & ->)]; [done|].
    rewrite fmap_alter_frame by done. by apply fmap_alter_frame.
Qed.

(** X5: [register_user] is all or nothing and only appends.  Whatever the
    store does: when it raises, the table is unchanged; when it returns a
    user, exactly one row was appended after the rows that were there, which
    are unchanged, and the user returned is that row under the next key, with
    the email given, a hash that verifies the password, no session id and no
    reset token. *)
Theorem register_user_appends (e p : string) (w : World) :
  (forall x w', register_user e p w = (Raise x, w') -> users w' = users w) /\
  (forall user w',
     register_user e p w = (Return user, w') ->
     exists h,
       user = mkUser (S (length (users w))) (mkFields e h None None) /\
       users w' = (users w ++ [mkFields e h None None])%list /\
       checkpw p h = Return true).
Proof.
  unfold register_user, try_except, bind.
  destruct (find_user_by (ByEmail e) w) as [[u|y] w1] eqn:Hf;
    apply find_user_by_world in Hf as ->; simpl.
  { split; [by intros x w' [= _ <-]|intros user w' [=]]. }
  destruct y; simpl; try (split; [by intros x w' [= _ <-]|intros user w' [=]]).
  unfold _hash_password, gensalt, os_urandom16, bind, of_outcome. simpl.
  destruct (hashpw p _) as [h|y] eqn:Hh; simpl.
  2:{ split; [by intros x w' [= _ <-]|intros user w' [=]]. }
  unfold add_user, bind, db_enter. simpl.
  destruct (db_fault _); simpl.
  - split; [by intros x w' [= _ <-]|intros user w' [=]].
  - split; [intros x w' [=]|]. intros user w' [= <- <-]. simpl.
    eexists. split_and!; [reflexivity..|].
    exact (checkpw_hashpw _ _ _ Hh).
Qed.

(** ** Invariants of the table *)

Lemma list_find_none_email_notin (e : string) (l : list Fields) :
  list_find (matches (ByEmail e)) l = None -> e ∉ email <$> l.
Proof.
  intros Hn (u & -> & Hu)%list_elem_of_fmap.
  apply list_find_None in Hn. rewrite Forall_forall in Hn.
  by apply (Hn u Hu).
Qed.

Lemma sessions_unique_same (l l' : list Fields) :
  session_id <$> l' = session_id <$> l ->
  sessions_unique l -> sessions_unique l'.
Proof.
  intros Heq Hu i j u v s Hi Hj Hsu Hsv.
  assert (Hi' : (session_id <$> l) !! i = Some (Some s)).
  { rewrite <- Heq, list_lookup_fmap, Hi. simpl. by rewrite Hsu. }
  assert (Hj' : (session_id <$> l) !! j = Some (Some s)).
  { rewrite <- Heq, list_lookup_fmap, Hj. simpl. by rewrite Hsv. }
  rewrite list_lookup_fmap in Hi', Hj'.
  destruct (l !! i) as [a|] eqn:Ha; [|discriminate].
  destruct (l !! j) as [b|] eqn:Hb; [|discriminate].
  simpl in Hi', Hj'. eapply (Hu i j a b s); congruence.
Qed.

Lemma sessions_unique_clear (l : list Fields) (i : nat) :
  sessions_unique l ->
  sessions_unique (alter (assign (SetSessionId None)) i l).
Proof.
  intros Hu j k u v s Hj Hk Hsu Hsv.
  destruct (decide (i = j)) as [->|Hij].
  { rewrite list_lookup_alter_eq in Hj. destruct (l !! j); [|discriminate].
    simpl in Hj. injection Hj as <-. discriminate Hsu. }
  destruct (decide (i = k)) as [->|Hik].
  { rewrite list_lookup_alter_eq in Hk. destruct (l !! k); [|discriminate].
    simpl in Hk. injection Hk as <-. discriminate Hsv. }
  rewrite list_lookup_alter_ne in Hj, Hk by done.
  by apply (Hu j k u v s).
Qed.

Lemma sessions_unique_set (l : list Fields) (i : nat) (s : string) :
  sessions_unique l ->
  (forall j v, l !! j = Some v -> session_id v <> Some s) ->
  sessions_unique (alter (assign (SetSessionId (Some s))) i l).
Proof.
  intros Hu Hfresh j k u v s' Hj Hk Hsu Hsv.
  destruct (decide (i = j)) as [->|Hij];
    destruct (decide (j = k)) as [->|Hjk]; try done.
  - rewrite list_lookup_alter_eq in Hj. destruct (l !! j); [|discriminate].
    simpl in Hj. injection Hj as <-. simpl in Hsu. injection Hsu as <-.
    rewrite list_lookup_alter_ne in Hk by done.
    destruct (Hfresh k v Hk Hsv).
  - rewrite list_lookup_alter_ne in Hj by done.
    destruct (decide (i = k)) as [->|Hik].
    + rewrite list_lookup_alter_eq in Hk. destruct (l !! k); [|discriminate].
      simpl in Hk. injection Hk as <-. simpl in Hsv. injection Hsv as <-.
      destruct (Hfresh j u Hj Hsu).
    + rewrite list_lookup_alter_ne in Hk by done.
      by apply (Hu j k u v s').
Qed.

Lemma sessions_unique_snoc (l : list Fields) (u : Fields) :
  session_id u = None -> sessions_unique l -> sessions_unique (l ++ [u]).
Proof.
  intros Hn Hu i j a b s Hi Hj Hsa Hsb.
  apply lookup_snoc_Some in Hi as [[_ Hi] | [_ <-]]; [|congruence].
  apply lookup_snoc_Some in Hj as [[_ Hj] | [_ <-]]; [|congruence].
  by apply (Hu i j a b s).
Qed.

(** X6: no operation breaks the uniqueness of emails.  When the emails of
    the table are pairwise distinct they still are after each operation that
    writes: after [register_user] on a store that answers, and after the
    session and reset operations whatever the store does. *)
Theorem emails_unique_invariant (e p t : string) (uid : option nat)
    (w : World) :
  NoDup (email <$> users w) ->
  (healthy -> NoDup (email <$> users (snd (register_user e p w)))) /\
  NoDup (email <$> users (snd (create_session e w))) /\
  NoDup (email <$> users (snd (destroy_session uid w))) /\
  NoDup (email <$> users (snd (get_reset_password_token e w))) /\
  NoDup (email <$> users (snd (update_password t p w))).
Proof.
  intros Hnd. split_and!.
  - intros Hh.
    destruct (list_find (matches (ByEmail e)) (users w)) as [[i u]|] eqn:Hf.
    + by rewrite (register_user_existing _ _ _ _ _ Hh Hf).
    + destruct (decide (String.length p <= 72)) as [Hp|Hp].
      2:{ by rewrite (register_user_refused _ _ _ Hh Hf) by lia. }
      rewrite (register_user_new _ _ _ Hh Hf Hp). simpl.
      rewrite fmap_app. simpl. apply NoDup_app. split_and!; [done| |].
      * intros x Hx ->%list_elem_of_singleton.
        by apply (list_find_none_email_notin _ _ Hf).
      * apply NoDup_singleton.
  - destruct (create_session_world e w) as [-> | [i ->]]; [done|].
    by rewrite fmap_alter_frame.
  - destruct (destroy_session_world uid w) as [_ [-> | [i ->]]]; [done|].
    by rewrite fmap_alter_frame.
  - destruct (get_reset_password_token_world e w) as [-> | (i & t' & ->)];
      [done|]. by rewrite fmap_alter_frame.
  - destruct (update_password_world t p w) as [-> | (i & h & ->)]; [done|].
    by rewrite !fmap_alter_frame.
Qed.

(** X7: no operation breaks the uniqueness of session ids.  When no two rows
    carry the same session id, that still holds after [create_session]
    provided the identifier it draws is carried by no row yet, and after
    [destroy_session], [register_user], [get_reset_password_token] and
    [update_password] without condition, whatever the store does. *)
Theorem sessions_unique_invariant (e p t : string) (uid : option nat)
    (w : World) :
  sessions_unique (users w) ->
  ((forall j v, users w !! j = Some v ->
      session_id v <>
      Some (uuid_str (uuid4_of (urandom (drawn w) mod 2 ^ 128)))) ->
   sessions_unique (users (snd (create_session e w)))) /\
  sessions_unique (users (snd (destroy_session uid w))) /\
  sessions_unique (users (snd (register_user e p w))) /\
  sessions_unique (users (snd (get_reset_password_token e w))) /\
  sessions_unique (users (snd (update_password t p w))).
Proof.
  intros Hu. split_and!.
  - intros Hfresh.
    destruct (create_session_world e w) as [-> | [i ->]]; [done|].
    by apply sessions_unique_set.
  - destruct (destroy_session_world uid w) as [_ [-> | [i ->]]]; [done|].
    by apply sessions_unique_clear.
  - destruct (register_user_world e p w) as [-> | [h ->]]; [done|].
    by apply sessions_unique_snoc.
  - destruct (get_reset_password_token_world e w) as [-> | (i & t' & ->)];
      [done|].
    eapply sessions_unique_same; [|exact Hu]. by apply fmap_alter_frame.
  - destruct (update_password_world t p w) as [-> | (i & h & ->)]; [done|].
    eapply sessions_unique_same; [|exact Hu]. by rewrite !fmap_alter_frame.
Qed.

(** ** Sessions and resets end to end *)

Lemma list_find_insert_same (c : Criterion) (l : list Fields) i u u' :
  list_find (matches c) l = Some (i, u) -> matches c u' ->
  list_find (matches c) (<[i := u']> l) = Some (i, u').
Proof.
  intros (Hl & _ & Hleast)%list_find_Some Hm. apply list_find_Some.
  split_and!.
  - apply list_lookup_insert_eq. eapply lookup_lt_Some; eauto.
  - exact Hm.
  - intros j y Hj Hlt. rewrite list_lookup_insert_ne in Hj by lia. eauto.
Qed.

(** X8: one session at a time.  On a store that answers, when the user the
    lookup by email yields holds the session id [old], alone, and
    [create_session] draws a different identifier, the new identifier
    replaces [old]: [get_user_from_session_id old] returns [None] afterwards. *)
Theorem create_session_revokes_previous (e old : string) (w : World)
    (i : nat) (u : Fields) :
  healthy ->
  list_find (matches (ByEmail e)) (users w) = Some (i, u) ->
  session_id u = Some old ->
  (forall j v, users w !! j = Some v -> session_id v = Some old -> j = i) ->
  uuid_str (uuid4_of (urandom (drawn w) mod 2 ^ 128)) <> old ->
  fst (get_user_from_session_id (Some old) (snd (create_session e w))) =
  Return None.
Proof.
  intros Hh Hf Hold Huniq Hne.
  rewrite (create_session_found _ _ _ _ Hh Hf). simpl.
  rewrite get_user_missing; [reflexivity|]. simpl.
  apply list_find_insert_gone; [|exact Huniq]. simpl. congruence.
Qed.

(** X9: the reset flow.  On a store that answers, when the lookup by email
    yields the user of index [i], the token drawn is carried by no other row
    and the new password has at most 72 bytes, [get_reset_password_token]
    returns the token, [update_password] with that token and the new
    password succeeds, and [valid_login] with the email and the new password
    then returns [True]; the row keeps its email and its session id and has
    no reset token left. *)
Theorem reset_flow (e p : string) (w : World) (i : nat) (u : Fields) :
  healthy ->
  list_find (matches (ByEmail e)) (users w) = Some (i, u) ->
  String.length p <= 72 ->
  (forall j v, users w !! j = Some v ->
     reset_token v = Some (uuid_str (uuid4_of (urandom (drawn w) mod 2 ^ 128))) ->
     j = i) ->
  exists t w1 w2 h,
    get_reset_password_token e w = (Return t, w1) /\
    update_password t p w1 = (Return tt, w2) /\
    fst (valid_login e p w2) = Return true /\
    users w2 = <[i := mkFields (email u) h (session_id u) None]> (users w).
Proof.
  intros Hh Hf Hp Hfresh.
  pose proof Hf as (Hl & He & _)%list_find_Some. simpl in He.
  pose proof (lookup_lt_Some _ _ _ Hl) as Hlt.
  pose proof (get_reset_password_token_found _ _ _ _ Hh Hf) as H1.
  simpl in H1.
  set (t := uuid_str (uuid4_of (urandom (drawn w) mod 2 ^ 128))) in *.
  set (u1 := mkFields (email u) (hashed_password u) (session_id u) (Some t))
    in *.
  set (w1 := mkWorld (<[i := u1]> (users w)) _ _) in H1.
  assert (Hf1 : list_find (matches (ByResetToken t)) (users w1) = Some (i, u1)).
  { simpl. apply list_find_insert_only; [exact Hlt|reflexivity|exact Hfresh]. }
  pose proof (update_password_found _ p _ _ _ Hh Hf1 Hp) as H2. simpl in H2.
  rewrite list_insert_insert_eq in H2.
  eexists t, w1, _, _. split_and!; [exact H1|exact H2| |reflexivity].
  erewrite valid_login_lookup_returns.
  2:{ apply find_user_by_found; [exact Hh|]. simpl.
      apply (list_find_insert_same _ _ _ u); [exact Hf|exact He]. }
  simpl. by rewrite (checkpw_hashpw _ _ _ (hashpw_accepts _ _ Hp)).
Qed.

(** ** The helpers of auth.py *)

Lemma string_length_append (s1 s2 : string) :
  String.length (s1 +:+ s2) = String.length s1 + String.length s2.
Proof. induction s1 as [|a s1 IH]; simpl; [reflexivity|]. by rewrite IH. Qed.

Lemma string_length_substring (s : string) (n m : nat) :
  n + m <= String.length s -> String.length (substring n m s) = m.
Proof.
  revert n m. induction s as [|a s IH]; intros [|n] [|m] H; simpl in *;
    try lia; try reflexivity.
  - f_equal. apply IH. lia.
  - apply IH. lia.
  - apply IH. lia.
Qed.

Lemma hex_fixed_length (k : nat) (n : N) (acc : string) :
  String.length (hex_fixed k n acc) = k + String.length acc.
Proof.
  revert n acc. induction k as [|k IH]; intros n acc; simpl; [reflexivity|].
  rewrite IH. simpl. lia.
Qed.

Lemma uuid_str_length (i : N) : String.length (uuid_str i) = 36.
Proof.
  unfold uuid_str.
  pose proof (hex_fixed_length 32 i "") as Hlen.
  change (String.length "") with 0 in Hlen.
  revert Hlen. generalize (hex_fixed 32 i ""). intros hex Hlen.
  rewrite !string_length_append, !string_length_substring by lia.
  reflexivity.
Qed.

(** X10: [_generate_uuid] never fails and returns a string of 36 characters,
    so never an empty one; it takes one draw of entropy and makes no call on
    the store. *)
Theorem generate_uuid_shape (w : World) :
  exists s,
    _generate_uuid w =
      (Return s, mkWorld (users w) (calls w) (S (drawn w))) /\
    String.length s = 36 /\ s <> "".
Proof.
  eexists. split_and!; [reflexivity|apply uuid_str_length|].
  apply uuid_str_nonempty.
Qed.

(** X11: [_hash_password] and the limit of bcrypt.  On a password of at
    most 72 bytes it returns a hash that verifies the password; on a longer
    one it raises the [ValueError] of [bcrypt.hashpw].  Either way it takes
    one draw of entropy, for the salt, and makes no call on the store. *)
Theorem hash_password_salted (p : string) (w : World) :
  (String.length p <= 72 ->
   exists h,
     _hash_password p w =
       (Return h, mkWorld (users w) (calls w) (S (drawn w))) /\
     checkpw p h = Return true) /\
  (72 < String.length p ->
   _hash_password p w =
     (Raise (ValueError bcrypt_too_long),
      mkWorld (users w) (calls w) (S (drawn w)))).
Proof.
  unfold _hash_password, gensalt, os_urandom16, bind, of_outcome. simpl.
  split; intros Hp.
  - rewrite (hashpw_accepts _ _ Hp). eexists. split; [reflexivity|].
    exact (checkpw_hashpw _ _ _ (hashpw_accepts _ _ Hp)).
  - by rewrite (hashpw_refuses _ _ Hp).
Qed.

(** ** The routes of app.py *)

Lemma find_by_session_unique (s : string) (l : list Fields) i u :
  l !! i = Some u -> session_id u = Some s ->
  (forall j v, l !! j = Some v -> session_id v = Some s -> j = i) ->
  list_find (matches (BySessionId s)) l = Some (i, u).
Proof.
  intros Hl Hs Huniq. apply list_find_Some. split_and!; [done..|].
  intros j v Hj Hlt Hv. specialize (Huniq j v Hj Hv). lia.
Qed.

Lemma get_user_inv (sid : option string) (w w' : World) (user : User) :
  get_user_from_session_id sid w = (Return (Some user), w') ->
  exists s i v,
    sid = Some s /\ user = mkUser (S i) v /\
    users w !! i = Some v /\ session_id v = Some s.
Proof.
  intros H. destruct (truthy_str sid) eqn:Ht.
  - destruct sid as [s|]; [|discriminate]. simpl in Ht.
    apply negb_true_iff, bool_decide_eq_false in Ht.
    destruct (find_user_by (BySessionId s) w) as [[u|x] w1] eqn:Hf.
    + rewrite (get_user_lookup_returns _ _ _ _ Ht Hf) in H.
      injection H as <- _.
      apply find_user_by_inv in Hf as (i & v & -> & (Hl & Hm & _)%list_find_Some).
      eauto 10.
    + rewrite (get_user_lookup_raises _ _ _ _ Ht Hf) in H. discriminate.
  - rewrite (get_user_falsy _ _ Ht) in H. discriminate.
Qed.

Lemma get_user_total (sid : option string) (w : World) :
  exists r w',
    get_user_from_session_id sid w = (Return r, w') /\
    users w' = users w /\ drawn w' = drawn w.
Proof.
  destruct (truthy_str sid) eqn:Ht.
  - destruct sid as [s|]; [|discriminate]. simpl in Ht.
    apply negb_true_iff, bool_decide_eq_false in Ht.
    destruct (find_user_by (BySessionId s) w) as [[u|x] w1] eqn:Hf.
    + rewrite (get_user_lookup_returns _ _ _ _ Ht Hf).
      apply find_user_by_world in Hf as ->. eauto.
    + rewrite (get_user_lookup_raises _ _ _ _ Ht Hf).
      apply find_user_by_world in Hf as ->. eauto.
  - rewrite (get_user_falsy _ _ Ht). eauto.
Qed.

Lemma app_profile_run (s : string) (w : World) :
  s <> "" ->
  app_profile (Some s) w =
  match get_user_from_session_id (Some s) w with
  | (Return (Some user), w') =>
      (Return (Jsonify 200 [("email", email (fields user))] []), w')
  | (Return None, w') => (Return (Abort 403), w')
  | (Raise x, w') => (Raise x, w')
  end.
Proof.
  intros Hs. unfold app_profile, truthy_str.
  rewrite bool_decide_eq_false_2 by exact Hs. simpl. unfold bind.
  destruct (get_user_from_session_id (Some s) w) as [[[u|]|x] w']; reflexivity.
Qed.

Lemma app_logout_run (s : string) (w : World) :
  s <> "" ->
  app_logout (Some s) w =
  match get_user_from_session_id (Some s) w with
  | (Return (Some user), w') =>
      match destroy_session (Some (id user)) w' with
      | (Return _, w'') => (Return (Redirect "/"), w'')
      | (Raise x, w'') => (Raise x, w'')
      end
  | (Return None, w') => (Return (Abort 403), w')
  | (Raise x, w') => (Raise x, w')
  end.
Proof.
  intros Hs. unfold app_logout, truthy_str.
  rewrite bool_decide_eq_false_2 by exact Hs. simpl. unfold bind.
  destruct (get_user_from_session_id (Some s) w) as [[[u|]|x] w'];
    reflexivity.
Qed.

Lemma update_user_ok_inv (uid : nat) (a : Assignment) (w w' : World) :
  update_user uid a w = (Return tt, w') ->
  exists i v,
    uid = S i /\ users w !! i = Some v /\
    users w' = <[i := assign a v]> (users w) /\ drawn w' = drawn w.
Proof.
  unfold update_user, bind, db_enter. intros H.
  repeat case_match; simplify_eq. simpl in *.
  eexists _, _. split_and!; [reflexivity|eassumption| |reflexivity].
  by apply alter_as_insert.
Qed.

Lemma update_user_raise_inv (uid : nat) (a : Assignment) (w w' : World)
    (x : exn) :
  update_user uid a w = (Raise x, w') -> users w' = users w.
Proof.
  unfold update_user, bind, db_enter. intros H.
  repeat case_match; simplify_eq; reflexivity.
Qed.

(** X12: [logout] clears the session the cookie names and nothing else.
    Without a session cookie, or with an empty one, [logout] and [profile]
    abort with 403 at once, with no call on the store.  Whatever the cookie
    and whatever the store does, after [logout] the table is either as it
    was, or as it was but for one row whose session id was the cookie and is
    now [None]. *)
Theorem logout_clears_only_named_session (sid : option string) (w : World) :
  (sid = None \/ sid = Some "" ->
   app_logout sid w = (Return (Abort 403), w) /\
   app_profile sid w = (Return (Abort 403), w)) /\
  (users (snd (app_logout sid w)) = users w \/
   exists s i u,
     sid = Some s /\ users w !! i = Some u /\ session_id u = Some s /\
     users (snd (app_logout sid w)) =
       <[i := mkFields (email u) (hashed_password u) None (reset_token u)]>
         (users w)).
Proof.
  split; [intros [-> | ->]; split; reflexivity|].
  destruct (truthy_str sid) eqn:Ht.
  - destruct sid as [s|]; [|discriminate]. simpl in Ht.
    apply negb_true_iff, bool_decide_eq_false in Ht.
    rewrite (app_logout_run _ _ Ht).
    destruct (get_user_total (Some s) w) as (r & w' & Hg & Hu & _).
    rewrite Hg. destruct r as [user|]; [|by left].
    apply get_user_inv in Hg as (s' & i & v & [= <-] & -> & Hl & Hs).
    simpl. unfold destroy_session. simpl.
    destruct (update_user (S i) (SetSessionId None) w') as [[[]|x] w''] eqn:Hd.
    + apply update_user_ok_inv in Hd as (i' & v' & [= <-] & Hl' & Hw & _).
      rewrite Hu, Hl in Hl'. injection Hl' as <-.
      right. exists s, i, v. simpl. rewrite Hw, Hu. done.
    + apply update_user_raise_inv in Hd. left. simpl. congruence.
  - left. unfold app_logout. rewrite Ht. reflexivity.
Qed.

(** X13: [profile] discloses an email only to the holder of a session.
    Whatever the cookie and whatever the store does, [profile] lets no
    exception escape and leaves the table and the entropy position as they
    were; it answers either 403, or 200 with the email of a stored user whose
    session id is the cookie. *)
Theorem profile_discloses_only_session_owner (sid : option string)
    (w : World) :
  exists r w',
    app_profile sid w = (Return r, w') /\
    users w' = users w /\ drawn w' = drawn w /\
    (r = Abort 403 \/
     exists s i u,
       sid = Some s /\ users w !! i = Some u /\ session_id u = Some s /\
       r = Jsonify 200 [("email", email u)] []).
Proof.
  destruct (truthy_str sid) eqn:Ht.
  - destruct sid as [s|]; [|discriminate]. simpl in Ht.
    apply negb_true_iff, bool_decide_eq_false in Ht.
    rewrite (app_profile_run _ _ Ht).
    destruct (get_user_total (Some s) w) as (r & w' & Hg & Hu & Hd).
    rewrite Hg. destruct r as [user|].
    + apply get_user_inv in Hg as (s' & i & v & [= <-] & -> & Hl & Hs).
      eexists _, _. split_and!; [reflexivity|done|done|].
      right. eauto 10.
    + eauto 10.
  - unfold app_profile. rewrite Ht. simpl. eauto 10.
Qed.

(** X14: [logout] ends the session.  On a store that answers, with the cookie
    of a session that one user holds, [logout] redirects to [/] and clears
    that user's session id and nothing else; the same cookie then gets 403
    from [profile] and from a second [logout]. *)
Theorem logout_ends_session (s : string) (w : World) (i : nat) (u : Fields) :
  healthy ->
  s <> "" ->
  users w !! i = Some u ->
  session_id u = Some s ->
  (forall j v, users w !! j = Some v -> session_id v = Some s -> j = i) ->
  exists w1,
    app_logout (Some s) w = (Return (Redirect "/"), w1) /\
    users w1 =
      <[i := mkFields (email u) (hashed_password u) None (reset_token u)]>
        (users w) /\
    fst (app_profile (Some s) w1) = Return (Abort 403) /\
    fst (app_logout (Some s) w1) = Return (Abort 403).
Proof.
  intros Hh Hs Hl Hsid Huniq.
  pose proof (find_by_session_unique _ _ _ _ Hl Hsid Huniq) as Hf.
  pose proof (get_user_found _ _ _ _ Hh Hs Hf) as Hg.
  pose proof (destroy_session_found (log_call (CallFind (BySessionId s)) w)
                i u Hh Hl) as Hd.
  pose proof (app_logout_run _ w Hs) as Hrun. rewrite Hg in Hrun.
  simpl in Hrun. rewrite Hd in Hrun. simpl in Hd, Hrun.
  eexists. split; [exact Hrun|]. split; [reflexivity|].
  assert (Hgone :
    get_user_from_session_id (Some s)
      (mkWorld
         (<[i := assign (SetSessionId None) u]> (users w))
         ((calls w ++ [CallFind (BySessionId s)]) ++
            [CallUpdate (S i) (SetSessionId None)]) (drawn w)) =
    (Return None,
     log_call (CallFind (BySessionId s))
       (mkWorld
          (<[i := assign (SetSessionId None) u]> (users w))
          ((calls w ++ [CallFind (BySessionId s)]) ++
             [CallUpdate (S i) (SetSessionId None)]) (drawn w)))).
  { rewrite get_user_missing.
    - by rewrite decide_False by exact Hs.
    - simpl. apply list_find_insert_gone; [|exact Huniq]. simpl. discriminate. }
  split.
  - rewrite (app_profile_run _ _ Hs). simpl in *. by rewrite Hgone.
  - rewrite (app_logout_run _ _ Hs). simpl in *. by rewrite Hgone.
Qed.

Lemma create_session_total (e : string) (w : World) :
  exists c w', create_session e w = (Return c, w').
Proof.
  destruct (find_user_by (ByEmail e) w) as [[u|x] w1] eqn:Hf.
  - rewrite (create_session_lookup_returns _ _ _ _ Hf). simpl.
    destruct (update_user _ _ _) as [[[]|y] w3]; eauto.
  - rewrite (create_session_lookup_raises _ _ _ _ Hf). eauto.
Qed.

Lemma create_session_some_inv (e s : string) (w w' : World) :
  create_session e w = (Return (Some s), w') ->
  exists i v,
    users w !! i = Some v /\ email v = e /\
    users w' = <[i := assign (SetSessionId (Some s)) v]> (users w).
Proof.
  intros Hc. destruct (find_user_by (ByEmail e) w) as [[u|x] w1] eqn:Hf.
  - rewrite (create_session_lookup_returns _ _ _ _ Hf) in Hc. simpl in Hc.
    pose proof (find_user_by_world _ _ _ _ Hf) as ->.
    apply find_user_by_inv in Hf as (i & v & -> & (Hl & Hm & _)%list_find_Some).
    destruct (update_user _ _ _) as [[[]|y] w3] eqn:Hu; [|discriminate].
    injection Hc as <- <-.
    apply update_user_ok_inv in Hu as (i' & v' & [= <-] & Hl' & Hu & _).
    simpl in Hl', Hu. rewrite Hl in Hl'. injection Hl' as <-. eauto.
  - rewrite (create_session_lookup_raises _ _ _ _ Hf) in Hc. discriminate.
Qed.

(** X15: [login] opens a session only on a verified password.  Whatever
    the store does: unless the store answers the lookup with a user whose
    hash verifies the password, [login] aborts with 401 and the table and the
    entropy position are as they were; and a reply that sets the session
    cookie to an identifier means that the first user with that email has a
    hash that verifies the password, and that the identifier is the session
    id now stored on a user with that email. *)
Theorem login_requires_verified_password (e p : string) (w : World) :
  ((forall i u,
      db_fault (length (calls w)) = None ->
      list_find (matches (ByEmail e)) (users w) = Some (i, u) ->
      checkpw p (hashed_password u) <> Return true) ->
   exists w',
     app_login e p w = (Return (Abort 401), w') /\
     users w' = users w /\ drawn w' = drawn w) /\
  (forall status body s w',
     app_login e p w =
       (Return (Jsonify status body [("session_id", s)]), w') ->
     exists i u j v,
       list_find (matches (ByEmail e)) (users w) = Some (i, u) /\
       checkpw p (hashed_password u) = Return true /\
       users w' !! j = Some v /\ session_id v = Some s /\ email v = e).
Proof.
  unfold app_login, bind.
  destruct (find_user_by (ByEmail e) w) as [[user|x] w1] eqn:Hf.
  - rewrite (valid_login_lookup_returns _ _ _ _ _ Hf).
    pose proof (find_user_by_world _ _ _ _ Hf) as ->.
    pose proof (find_user_by_answered _ _ _ _ Hf) as Hok.
    apply find_user_by_inv in Hf as (i & u & -> & Hfind). simpl.
    destruct (verified (checkpw p (hashed_password u))) eqn:Hck.
    + apply verified_true in Hck. split.
      * intros Hbad. destruct (Hbad i u Hok Hfind Hck).
      * intros status body s w' Hr.
        destruct (create_session e (log_call (CallFind (ByEmail e)) w))
          as [[[c|]|x] w2] eqn:Hc; [|discriminate..].
        simpl in Hr. injection Hr as _ _ -> <-.
        apply create_session_some_inv in Hc as (j & v & Hl & He & Hu).
        simpl in Hl, Hu.
        exists i, u, j, (assign (SetSessionId (Some s)) v).
        split_and!; [done|done| |reflexivity|exact He].
        rewrite Hu. apply list_lookup_insert_eq. eapply lookup_lt_Some; eauto.
    + split; [eauto|]. intros status body s w' [=].
  - rewrite (valid_login_lookup_raises _ _ _ _ _ Hf).
    pose proof (find_user_by_world _ _ _ _ Hf) as ->.
    split; [eauto|]. intros status body s w' [=].
Qed.

(** X16: sign up, log in, read the profile.  On a store that answers, for an
    email no user has and a password of at most 72 bytes, when the identifier
    drawn at login is carried by no row yet: [users] answers 200 "user
    created", [login] with the same email and password answers 200 "logged
    in" and sets the cookie to that identifier, and [profile] with that
    cookie answers 200 with the email. *)
Theorem signup_login_profile (e p : string) (w : World) :
  healthy ->
  String.length p <= 72 ->
  (forall i u, users w !! i = Some u -> email u <> e) ->
  (forall i u, users w !! i = Some u ->
     session_id u <>
     Some (uuid_str (uuid4_of (urandom (S (drawn w)) mod 2 ^ 128)))) ->
  exists s w1 w2 w3,
    app_users e p w =
      (Return (Jsonify 200 [("email", e); ("message", "user created")] []),
       w1) /\
    app_login e p w1 =
      (Return (Jsonify 200 [("email", e); ("message", "logged in")]
                 [("session_id", s)]), w2) /\
    app_profile (Some s) w2 =
      (Return (Jsonify 200 [("email", e)] []), w3) /\
    s = uuid_str (uuid4_of (urandom (S (drawn w)) mod 2 ^ 128)).
Proof.
  intros Hh Hp Hno Hfresh.
  pose proof (list_find_no_email _ _ Hno) as Hf0.
  set (s := uuid_str (uuid4_of (urandom (S (drawn w)) mod 2 ^ 128))) in *.
  set (h := hashed_with p (urandom (drawn w) mod 2 ^ 128)).
  set (row := mkFields e h None None).
  set (n := length (users w)).
  (* users *)
  assert (H1 : exists w1,
    app_users e p w =
      (Return (Jsonify 200 [("email", e); ("message", "user created")] []),
       w1) /\ users w1 = (users w ++ [row])%list /\ drawn w1 = S (drawn w)).
  { unfold app_users, try_except, bind.
    rewrite (register_user_new _ _ _ Hh Hf0 Hp). simpl. eauto. }
  destruct H1 as (w1 & H1 & Hu1 & Hd1).
  assert (Hf1 : list_find (matches (ByEmail e)) (users w1) = Some (n, row)).
  { rewrite Hu1. apply list_find_snoc_new; [exact Hf0|reflexivity]. }
  (* login *)
  assert (Hv : valid_login e p w1 =
                (Return true, log_call (CallFind (ByEmail e)) w1)).
  { rewrite (valid_login_lookup_returns e p _ _ _
               (find_user_by_found _ _ _ _ Hh Hf1)).
    f_equal. f_equal. apply verified_true.
    exact (checkpw_hashpw _ _ _ (hashpw_accepts _ _ Hp)). }
  pose proof (create_session_found e
                (log_call (CallFind (ByEmail e)) w1) n row Hh Hf1) as Hc.
  simpl in Hc. rewrite Hd1 in Hc. fold s in Hc.
  assert (H2 : exists w2,
    app_login e p w1 =
      (Return (Jsonify 200 [("email", e); ("message", "logged in")]
                 [("session_id", s)]), w2) /\
    users w2 = <[n := assign (SetSessionId (Some s)) row]> (users w1)).
  { unfold app_login, bind. rewrite Hv, Hc. eauto. }
  destruct H2 as (w2 & H2 & Hu2).
  (* profile *)
  assert (Hs : s <> "") by apply uuid_str_nonempty.
  assert (Hf2 : list_find (matches (BySessionId s)) (users w2) =
                Some (n, assign (SetSessionId (Some s)) row)).
  { rewrite Hu2, Hu1. apply list_find_insert_only.
    - rewrite length_app. simpl. unfold n. lia.
    - reflexivity.
    - intros j v Hj Hv'.
      apply lookup_snoc_Some in Hj as [[_ Hj] | [Hj _]]; [|exact Hj].
      destruct (Hfresh j v Hj Hv'). }
  pose proof (get_user_found _ _ _ _ Hh Hs Hf2) as Hg.
  exists s, w1, w2. eexists. split_and!; [exact H1|exact H2| |reflexivity].
  rewrite (app_profile_run _ _ Hs), Hg. reflexivity.
Qed.

Lemma find_user_by_store_error (c : Criterion) (w : World) (x : exn) :
  db_fault (length (calls w)) = Some x ->
  find_user_by c w = (Raise x, log_call (CallFind c) w).
Proof. intros Hx. by rewrite find_user_by_run, Hx. Qed.


(** X18: the [reset_password] POST route.  On a store that answers, an email
    the lookup finds gets 200 with a reset token, the UUID of the next draw,
    which is then the reset token of that user's row; an email no user has
    gets 403 and the table is unchanged.  When the store fails with an
    exception that is not a [ValueError] nor [NoResultFound], the route does
    not answer 403: the exception escapes it. *)
Theorem reset_token_route (e : string) (w : World) :
  (healthy ->
   forall i u, list_find (matches (ByEmail e)) (users w) = Some (i, u) ->
   exists t w',
     app_get_reset_password_token e w =
       (Return (Jsonify 200 [("email", e); ("reset_token", t)] []), w') /\
     t = uuid_str (uuid4_of (urandom (drawn w) mod 2 ^ 128)) /\
     users w' !! i =
       Some (mkFields (email u) (hashed_password u) (session_id u) (Some t))) /\
  (healthy ->
   (forall i u, users w !! i = Some u -> email u <> e) ->
   exists w',
     app_get_reset_password_token e w = (Return (Abort 403), w') /\
     users w' = users w) /\
  (forall d, db_fault (length (calls w)) = Some (StoreError d) ->
     fst (app_get_reset_password_token e w) = Raise (StoreError d)).
Proof.
  split_and!.
  - intros Hh i u Hf. unfold app_get_reset_password_token, try_except, bind.
    rewrite (get_reset_password_token_found _ _ _ _ Hh Hf). simpl.
    eexists _, _. split_and!; [reflexivity..|]. simpl.
    apply list_lookup_insert_eq. apply list_find_Some in Hf as (Hl & _).
    eapply lookup_lt_Some; eauto.
  - intros Hh Hno. pose proof (list_find_no_email _ _ Hno) as Hf.
    unfold app_get_reset_password_token, get_reset_password_token,
      try_except, bind.
    rewrite (find_user_by_missing _ _ Hh Hf). simpl. eauto.
  - intros d Hd.
    unfold app_get_reset_password_token, get_reset_password_token,
      try_except, bind.
    rewrite (find_user_by_store_error _ _ _ Hd). reflexivity.
Qed.

(** X19: the [reset_password] PUT route.  On a store that answers, a token
    one user holds, with a new password of at most 72 bytes, gets 200
    "Password updated": that user's hash becomes one that verifies the new
    password and the token is cleared, whatever email the form carried, which
    the route only echoes.  The same token with a longer password gets 403,
    the [ValueError] of bcrypt being caught by the route, and the table is
    unchanged.  A token no row carries gets 403 and the table is unchanged.
    When the store fails with an exception that is not a [ValueError] nor
    [NoResultFound], the exception escapes the route. *)
Theorem update_password_route (e p t : string) (w : World) :
  (healthy ->
   forall i u,
     users w !! i = Some u -> reset_token u = Some t ->
     (forall j v, users w !! j = Some v -> reset_token v = Some t -> j = i) ->
     (String.length p <= 72 ->
      exists h w',
        app_update_password e p t w =
          (Return (Jsonify 200 [("email", e); ("message", "Password updated")]
                     []), w') /\
        checkpw p h = Return true /\
        users w' =
          <[i := mkFields (email u) h (session_id u) None]> (users w)) /\
     (72 < String.length p ->
      exists w',
        app_update_password e p t w = (Return (Abort 403), w') /\
        users w' = users w)) /\
  (healthy ->
   (forall i u, users w !! i = Some u -> reset_token u <> Some t) ->
   exists w',
     app_update_password e p t w = (Return (Abort 403), w') /\
     users w' = users w) /\
  (forall d, db_fault (length (calls w)) = Some (StoreError d) ->
     fst (app_update_password e p t w) = Raise (StoreError d)).
Proof.
  split_and!.
  - intros Hh i u Hl Ht Huniq.
    assert (Hf : list_find (matches (ByResetToken t)) (users w) = Some (i, u)).
    { apply list_find_Some. split_and!; [exact Hl|exact Ht|].
      intros j v Hj Hlt Hv. specialize (Huniq j v Hj Hv). lia. }
    split; intros Hp; unfold app_update_password, try_except, bind.
    + rewrite (update_password_found _ p _ _ _ Hh Hf Hp). simpl.
      eexists _, _. split_and!; [reflexivity| |reflexivity].
      exact (checkpw_hashpw _ _ _ (hashpw_accepts _ _ Hp)).
    + rewrite (update_password_refused _ p _ _ _ Hh Hf Hp). simpl. eauto.
  - intros Hh Hno.
    assert (Hf : list_find (matches (ByResetToken t)) (users w) = None).
    { apply list_find_None, Forall_lookup. intros j v Hj. exact (Hno j v Hj). }
    unfold app_update_password, update_password, try_except, bind.
    rewrite (find_user_by_missing _ _ Hh Hf). simpl. eauto.
  - intros d Hd.
    unfold app_update_password, update_password, try_except, bind.
    rewrite (find_user_by_store_error _ _ _ Hd). reflexivity.
Qed.

End Service.

(** ** The model at work: instances of the theorems on sample worlds *)

Lemma no_fault_healthy : healthy no_fault.
Proof. intros n. reflexivity. Defined.

Lemma register_then_valid_login_witness :
  healthy no_fault /\
  fst (valid_login no_fault kdf0 "carol@example.com" "s3cret"
         (snd (register_user tape0 no_fault kdf0
                 "carol@example.com" "s3cret" world2))) = Return true.
Proof.
  split; [exact no_fault_healthy|].
  eapply proj2,
    (register_then_valid_login tape0 no_fault kdf0
       "carol@example.com" "s3cret" world2 _ _ no_fault_healthy).
  reflexivity.
Defined.

Lemma register_user_email_unique_witness :
  exists w',
    register_user tape0 no_fault kdf0 "alice@example.com" "x" world2 =
      (Raise (ValueError "User alice@example.com already exists"), w') /\
    users w' = users world2 /\ drawn w' = drawn world2.
Proof.
  apply (proj1 (register_user_email_unique tape0 no_fault kdf0
                  "alice@example.com" "x" world2 no_fault_healthy)).
  exists 0, alice. split; reflexivity.
Defined.

Lemma create_session_persists_witness :
  exists s w',
    create_session tape0 no_fault "alice@example.com" world2 =
      (Return (Some s), w') /\
    s = uuid5 /\
    drawn w' = 6 /\
    users w' =
      [mkFields "alice@example.com" (hashed_password alice) (Some s)
         (Some "r-alice"); bob] /\
    users w' !! 0 =
      Some (mkFields "alice@example.com" (hashed_password alice) (Some s)
              (Some "r-alice")).
Proof.
  exact (create_session_persists tape0 no_fault "alice@example.com" world2
           0 alice no_fault_healthy eq_refl).
Defined.

Lemma session_round_trip_witness :
  fst (get_user_from_session_id no_fault (Some uuid5)
         (snd (create_session tape0 no_fault "bob@example.com" world2))) =
  Return (Some (mkUser 2
    (mkFields "bob@example.com" (hashed_password bob) (Some uuid5) None))).
Proof.
  refine (proj1 (proj1 (session_round_trip tape0 no_fault "bob@example.com"
                          world2 no_fault_healthy)
                   1 bob uuid5 _ eq_refl eq_refl _)).
  intros [|[|j]] v Hj Hs; [|reflexivity|discriminate Hj].
  injection Hj as <-. vm_compute in Hs. discriminate Hs.
Defined.

Lemma destroy_session_frame_witness :
  exists w1,
    destroy_session no_fault (Some 1) world2 = (Return tt, w1) /\
    users w1 !! 0 =
      Some (mkFields "alice@example.com" (hashed_password alice) None
              (Some "r-alice")) /\
    (forall j, j <> 0 -> users w1 !! j = users world2 !! j) /\
    length (users w1) = 2 /\
    drawn w1 = 5 /\
    ((forall j v, users world2 !! j = Some v ->
        session_id v = Some "s-alice" -> j = 0) ->
     fst (get_user_from_session_id no_fault (Some "s-alice") w1) = Return None).
Proof.
  exact (destroy_session_frame no_fault world2 0 alice "s-alice"
           no_fault_healthy eq_refl eq_refl).
Defined.

Lemma get_reset_password_token_stores_witness :
  exists t w1,
    get_reset_password_token tape0 no_fault "bob@example.com" world2 =
      (Return t, w1) /\
    t = uuid5 /\
    drawn w1 = 6 /\
    users w1 =
      [alice; mkFields "bob@example.com" (hashed_password bob) None (Some t)] /\
    users w1 !! 1 =
      Some (mkFields "bob@example.com" (hashed_password bob) None (Some t)).
Proof.
  exact (proj1 (get_reset_password_token_stores tape0 no_fault
                  "bob@example.com" world2 no_fault_healthy)
           1 bob eq_refl).
Defined.

Lemma update_password_single_use_witness :
  exists h w1,
    update_password tape0 no_fault kdf0 "r-alice" "looking-glass" world2 =
      (Return tt, w1) /\
    hashpw kdf0 "looking-glass" (tape0 5 mod 2 ^ 128) = Return h /\
    checkpw kdf0 "looking-glass" h = Return true /\
    users w1 =
      [mkFields "alice@example.com" h (Some "s-alice") None; bob] /\
    users w1 !! 0 =
      Some (mkFields "alice@example.com" h (Some "s-alice") None) /\
    ((forall j v, users world2 !! j = Some v ->
        reset_token v = Some "r-alice" -> j = 0) ->
     exists w2,
       update_password tape0 no_fault kdf0 "r-alice" "again" w1 =
         (Raise (ValueError ""), w2) /\
       users w2 = users w1).
Proof.
  refine (proj1 (update_password_single_use tape0 no_fault kdf0
                   "r-alice" "looking-glass" "again" world2 0 alice
                   no_fault_healthy eq_refl) _).
  simpl. lia.
Defined.

Lemma lookup_failures_absorbed_witness :
  fst (valid_login outage kdf0 "alice@example.com" "wonderland" world2) =
    Return false /\
  fst (create_session tape0 outage "alice@example.com" world2) = Return None /\
  fst (get_user_from_session_id outage (Some "s-alice") world2) = Return None.
Proof.
  pose proof (lookup_failures_absorbed tape0 outage kdf0
                "alice@example.com" "wonderland" (Some "s-alice") world2)
    as ((_ & _ & Hv & _) & (_ & Hc & _) & (_ & Hg)).
  split_and!.
  - exact (Hv _ _ eq_refl).
  - exact (Hc _ _ eq_refl).
  - exact (Hg _ _ _ eq_refl eq_refl).
Defined.

Lemma get_user_from_session_id_falsy_witness :
  get_user_from_session_id outage (Some "") world2 = (Return None, world2) /\
  calls (snd (get_user_from_session_id outage (Some "") world2)) = [].
Proof.
  exact (get_user_from_session_id_falsy outage (Some "") world2
           (or_intror eq_refl)).
Defined.

Lemma lookup_failure_outcomes_witness :
  valid_login outage kdf0 "alice@example.com" "wonderland" world2 =
    (Return false, log_call (CallFind (ByEmail "alice@example.com")) world2) /\
  create_session tape0 outage "alice@example.com" world2 =
    (Return None, log_call (CallFind (ByEmail "alice@example.com")) world2) /\
  get_reset_password_token tape0 outage "alice@example.com" world2 =
    (Raise (StoreError "connection refused"),
     log_call (CallFind (ByEmail "alice@example.com")) world2).
Proof.
  exact (proj1 (lookup_failure_outcomes tape0 outage kdf0
                  "alice@example.com" "r-alice" "wonderland" "s-alice"
                  world2 _ (StoreError "connection refused"))
           eq_refl).
Defined.

(** C9 as stated fails: with the store out of reach, the reset operations
    surface the store's own exception, where a simple not-found surfaces the
    bare [ValueError]. *)
Lemma store_outage_surfaces :
  fst (get_reset_password_token tape0 outage "alice@example.com" world2) =
    Raise (StoreError "connection refused") /\
  fst (get_reset_password_token tape0 no_fault "nobody@example.com" world2) =
    Raise (ValueError "") /\
  fst (get_reset_password_token tape0 outage "alice@example.com" world2) <>
    Raise (ValueError "") /\
  fst (update_password tape0 outage kdf0 "r-alice" "pw" world2) =
    Raise (StoreError "connection refused") /\
  fst (update_password tape0 no_fault kdf0 "r-nobody" "pw" world2) =
    Raise (ValueError "") /\
  fst (update_password tape0 outage kdf0 "r-alice" "pw" world2) <>
    Raise (ValueError "").
Proof.
  split_and!; try reflexivity; vm_compute; discriminate.
Qed.

(** C3 as stated fails: no user has the email, yet [register_user] with a
    password of 73 bytes inserts nothing; it raises the [ValueError] of
    [bcrypt.hashpw]. *)
Lemma register_user_refuses_long_password :
  (forall i u, users world2 !! i = Some u -> email u <> "carol@example.com") /\
  fst (register_user tape0 no_fault kdf0 "carol@example.com" long_password
         world2) = Raise (ValueError bcrypt_too_long) /\
  users (snd (register_user tape0 no_fault kdf0 "carol@example.com"
                long_password world2)) = users world2.
Proof.
  split_and!; [|reflexivity..].
  intros [|[|j]] v Hj; [| |discriminate Hj]; injection Hj as <-; discriminate.
Qed.

(** C2 as stated fails: the token matches alice, yet [update_password] with
    a new password of 73 bytes raises the [ValueError] of [bcrypt.hashpw],
    leaves her hash and her reset token as they were, and a second call with
    the same token does not fail. *)
Lemma update_password_refuses_long_password :
  users world2 !! 0 = Some alice /\ reset_token alice = Some "r-alice" /\
  fst (update_password tape0 no_fault kdf0 "r-alice" long_password world2) =
    Raise (ValueError bcrypt_too_long) /\
  users (snd (update_password tape0 no_fault kdf0 "r-alice" long_password
                world2)) = users world2 /\
  fst (update_password tape0 no_fault kdf0 "r-alice" "looking-glass"
         (snd (update_password tape0 no_fault kdf0 "r-alice" long_password
                 world2))) = Return tt.
Proof. split_and!; reflexivity. Qed.


(** ** Instances of the further properties *)

Lemma world2_emails_distinct : NoDup (email <$> users world2).
Proof.
  apply NoDup_cons. split; [|apply NoDup_singleton].
  intros H%list_elem_of_singleton. discriminate H.
Defined.

Lemma world2_sessions_unique : sessions_unique (users world2).
Proof.
  intros [|[|i]] [|[|j]] u v s Hi Hj Hu Hv; try reflexivity;
    try discriminate Hi; try discriminate Hj;
    injection Hi as <-; injection Hj as <-; discriminate.
Defined.

Lemma destroy_session_falsy_witness :
  destroy_session outage (Some 0) world2 = (Return tt, world2) /\
  fst (destroy_session outage (Some 1) world2) =
    Raise (StoreError "connection refused").
Proof.
  split.
  - exact (proj1 (destroy_session_falsy outage (Some 0) world2)
             (or_intror eq_refl)).
  - exact (proj2 (proj2 (destroy_session_falsy outage (Some 1) world2)
                    0 eq_refl) _ eq_refl).
Defined.

Lemma emails_unique_invariant_witness :
  NoDup (email <$>
           users (snd (register_user tape0 no_fault kdf0
                         "carol@example.com" "s3cret" world2))).
Proof.
  exact (proj1 (emails_unique_invariant tape0 no_fault kdf0
                  "carol@example.com" "s3cret" "r-alice" (Some 1) world2
                  world2_emails_distinct)
           no_fault_healthy).
Defined.

Lemma sessions_unique_invariant_witness :
  sessions_unique
    (users (snd (create_session tape0 no_fault "bob@example.com" world2))).
Proof.
  refine (proj1 (sessions_unique_invariant tape0 no_fault kdf0
                   "bob@example.com" "builder" "r-alice" (Some 1) world2
                   world2_sessions_unique) _).
  intros [|[|j]] v Hj Hs; [| |discriminate Hj]; injection Hj as <-.
  - vm_compute in Hs. discriminate Hs.
  - discriminate Hs.
Defined.

Lemma create_session_revokes_previous_witness :
  fst (get_user_from_session_id no_fault (Some "s-alice")
         (snd (create_session tape0 no_fault "alice@example.com" world2))) =
  Return None.
Proof.
  refine (create_session_revokes_previous tape0 no_fault
            "alice@example.com" "s-alice" world2 0 alice
            no_fault_healthy eq_refl eq_refl _ _).
  - intros [|[|j]] v Hj Hs; [reflexivity| |discriminate Hj].
    injection Hj as <-. discriminate Hs.
  - vm_compute. discriminate.
Defined.

Lemma reset_flow_witness :
  exists t w1 w2 h,
    get_reset_password_token tape0 no_fault "bob@example.com" world2 =
      (Return t, w1) /\
    update_password tape0 no_fault kdf0 t "hammer" w1 = (Return tt, w2) /\
    fst (valid_login no_fault kdf0 "bob@example.com" "hammer" w2) =
      Return true /\
    users w2 = [alice; mkFields "bob@example.com" h None None].
Proof.
  refine (reset_flow tape0 no_fault kdf0 "bob@example.com" "hammer" world2
            1 bob no_fault_healthy eq_refl _ _).
  - simpl. lia.
  - intros [|[|j]] v Hj Ht; [|reflexivity|discriminate Hj].
    injection Hj as <-. vm_compute in Ht. discriminate Ht.
Defined.

Lemma hash_password_salted_witness :
  (exists h,
     _hash_password tape0 kdf0 "s3cret" world2 =
       (Return h, mkWorld [alice; bob] [] 6) /\
     checkpw kdf0 "s3cret" h = Return true) /\
  _hash_password tape0 kdf0 long_password world2 =
    (Raise (ValueError bcrypt_too_long), mkWorld [alice; bob] [] 6).
Proof.
  split.
  - apply (proj1 (hash_password_salted tape0 kdf0 "s3cret" world2)).
    simpl. lia.
  - apply (proj2 (hash_password_salted tape0 kdf0 long_password world2)).
    simpl. lia.
Defined.

Lemma logout_clears_only_named_session_witness :
  app_logout outage None world2 = (Return (Abort 403), world2) /\
  app_profile outage None world2 = (Return (Abort 403), world2).
Proof.
  exact (proj1 (logout_clears_only_named_session outage None world2)
           (or_introl eq_refl)).
Defined.

Lemma logout_ends_session_witness :
  exists w1,
    app_logout no_fault (Some "s-alice") world2 = (Return (Redirect "/"), w1) /\
    users w1 =
      [mkFields "alice@example.com" (hashed_password alice) None
         (Some "r-alice"); bob] /\
    fst (app_profile no_fault (Some "s-alice") w1) = Return (Abort 403) /\
    fst (app_logout no_fault (Some "s-alice") w1) = Return (Abort 403).
Proof.
  refine (logout_ends_session no_fault "s-alice" world2 0 alice
            no_fault_healthy _ eq_refl eq_refl _).
  - discriminate.
  - intros [|[|j]] v Hj Hs; [reflexivity| |discriminate Hj].
    injection Hj as <-. discriminate Hs.
Defined.

Lemma signup_login_profile_witness :
  exists s w1 w2 w3,
    app_users tape0 no_fault kdf0 "carol@example.com" "s3cret" world2 =
      (Return (Jsonify 200 [("email", "carol@example.com");
                            ("message", "user created")] []), w1) /\
    app_login tape0 no_fault kdf0 "carol@example.com" "s3cret" w1 =
      (Return (Jsonify 200 [("email", "carol@example.com");
                            ("message", "logged in")]
                 [("session_id", s)]), w2) /\
    app_profile no_fault (Some s) w2 =
      (Return (Jsonify 200 [("email", "carol@example.com")] []), w3) /\
    s = uuid6.
Proof.
  refine (signup_login_profile tape0 no_fault kdf0
            "carol@example.com" "s3cret" world2 no_fault_healthy _ _ _).
  - simpl. lia.
  - intros [|[|j]] v Hj; [| |discriminate Hj]; injection Hj as <-;
      discriminate.
  - intros [|[|j]] v Hj Hs; [| |discriminate Hj]; injection Hj as <-.
    + vm_compute in Hs. discriminate Hs.
    + discriminate Hs.
Defined.


Lemma reset_token_route_witness :
  exists w',
    app_get_reset_password_token tape0 no_fault "nobody@example.com" world2 =
      (Return (Abort 403), w') /\
    users w' = users world2.
Proof.
  apply (proj1 (proj2 (reset_token_route tape0 no_fault "nobody@example.com"
                         world2)) no_fault_healthy).
  intros [|[|j]] v Hj; [| |discriminate Hj]; injection Hj as <-; discriminate.
Defined.

Lemma update_password_route_witness :
  (exists h w',
     app_update_password tape0 no_fault kdf0
       "mallory@example.com" "owned" "r-alice" world2 =
       (Return (Jsonify 200 [("email", "mallory@example.com");
                             ("message", "Password updated")] []), w') /\
     checkpw kdf0 "owned" h = Return true /\
     users w' = [mkFields "alice@example.com" h (Some "s-alice") None; bob]) /\
  (exists w',
     app_update_password tape0 no_fault kdf0
       "alice@example.com" long_password "r-alice" world2 =
       (Return (Abort 403), w') /\
     users w' = users world2).
Proof.
  assert (Huniq : forall j v, users world2 !! j = Some v ->
                    reset_token v = Some "r-alice" -> j = 0).
  { intros [|[|j]] v Hj Hs; [reflexivity| |discriminate Hj].
    injection Hj as <-. discriminate Hs. }
  split.
  - refine (proj1 (proj1 (update_password_route tape0 no_fault kdf0
                            "mallory@example.com" "owned" "r-alice" world2)
                     no_fault_healthy 0 alice eq_refl eq_refl Huniq) _).
    simpl. lia.
  - refine (proj2 (proj1 (update_password_route tape0 no_fault kdf0
                            "alice@example.com" long_password "r-alice"
                            world2)
                     no_fault_healthy 0 alice eq_refl eq_refl Huniq) _).
    simpl. lia.
Defined.

Lemma login_requires_verified_password_witness :
  exists w',
    app_login tape0 no_fault kdf0 "alice@example.com" "rabbit-hole" world2 =
      (Return (Abort 401), w') /\
    users w' = users world2 /\ drawn w' = drawn world2.
Proof.
  apply (proj1 (login_requires_verified_password tape0 no_fault kdf0
                  "alice@example.com" "rabbit-hole" world2)).
  intros i u _ Hf. vm_compute in Hf. injection Hf as _ <-.
  vm_compute. discriminate.
Defined.

Lemma register_user_appends_witness :
  users (snd (register_user tape0 outage kdf0 "carol@example.com" "s3cret"
                world2)) = users world2.
Proof.
  exact (proj1 (register_user_appends tape0 outage kdf0
                  "carol@example.com" "s3cret" world2) _ _ eq_refl).
Defined.
